(** * World map graph store: a shallow embedding of [world_map.py]

    The development follows the layout of the Python module: the direction
    vocabulary, the [RoomExit] and [Room] entities, the [WorldMap] store with
    its mutators, the placement engine, the conflict resolver and the
    persistence codec.  Theorems come after the definitions.

    Modelling choices.
    - Python [dict]s are insertion-ordered association lists ([PyDict]):
      the conflict resolver scans [self.rooms.values()] in insertion order
      and stops at the first overlap, so the order is observable.
    - Python [float]s are reached through the interface [Num].  The instance
      [float_num] is IEEE binary64 (Rocq's primitive floats), which is what
      the interpreter computes with; statements that do not depend on the
      arithmetic are proved for every instance.
    - Exceptions are values of [result]. *)

From Stdlib Require Import String ZArith List Bool Lia PrimFloat.
Import ListNotations.

Set Implicit Arguments.

Local Open Scope string_scope.
Local Open Scope list_scope.

(** ** Exceptions *)

Inductive PyError : Type :=
| KeyError (key : string)
| ValueError (msg : string).

Inductive result (A : Type) : Type :=
| Ok (a : A)
| Raise (e : PyError).

Arguments Ok {A} a.
Arguments Raise {A} e.

Definition bind {A B : Type} (c : result A) (k : A -> result B) : result B :=
  match c with
  | Ok a => k a
  | Raise e => Raise e
  end.

Notation "x <- c ;; k" := (bind c (fun x => k))
  (at level 61, c at next level, right associativity).


(** A [for] loop whose body may raise: the first exception ends the loop. *)
Fixpoint for_each {A S : Type} (body : S -> A -> result S) (l : list A) (s : S)
    : result S :=
  match l with
  | [] => Ok s
  | a :: l' => s' <- body s a ;; for_each body l' s'
  end.

(** [d[field]] on a record whose field may be absent, and [d.get(field, dflt)]. *)
Definition item {A : Type} (field : string) (v : option A) : result A :=
  match v with
  | Some a => Ok a
  | None => Raise (KeyError field)
  end.

Definition get_default {A : Type} (v : option A) (dflt : A) : A :=
  match v with
  | Some a => a
  | None => dflt
  end.

(** ** Numbers

    The arithmetic the module uses on coordinates and extents: the literals
    [0], [1], [2] and [0.7], the four operations, [math.sqrt] and the
    comparisons [==], [<] and [<=] (with [a >= b] read as [b <= a]), and
    unary minus. *)

Class Num : Type := {
  num : Type;
  zero : num;
  one : num;
  two : num;
  seven_tenths : num;
  nadd : num -> num -> num;
  nsub : num -> num -> num;
  nmul : num -> num -> num;
  ndiv : num -> num -> num;
  nopp : num -> num;
  nsqrt : num -> num;
  neqb : num -> num -> bool;
  nltb : num -> num -> bool;
  nleb : num -> num -> bool
}.

Declare Scope num_scope.
Delimit Scope num_scope with num.
Infix "+" := nadd : num_scope.
Infix "-" := nsub : num_scope.
Infix "*" := nmul : num_scope.
Infix "/" := ndiv : num_scope.
Notation "- a" := (nopp a) : num_scope.
Infix "==" := neqb (at level 70, no associativity) : num_scope.
Infix "<=?" := nleb : num_scope.
Infix "<?" := nltb : num_scope.

(** [max(a, b)] of the Python builtins: the first argument is kept unless
    the second compares strictly greater. *)
Definition pymax {N : Num} (a b : num) : num :=
  if (a <? b)%num then b else a.

(** [min(a, b)] of the Python builtins: the first argument is kept unless
    the second compares strictly smaller. *)
Definition pymin {N : Num} (a b : num) : num :=
  if (b <? a)%num then b else a.

(** [min] and [max] over a non-empty iterable: the running value starts at
    the first item and is replaced by each later item that compares strictly
    smaller (greater). *)
Definition pymin_of {N : Num} (first : num) (rest : list num) : num :=
  fold_left pymin rest first.

Definition pymax_of {N : Num} (first : num) (rest : list num) : num :=
  fold_left pymax rest first.

(** IEEE binary64, the arithmetic of Python's [float]. *)
#[export] Instance float_num : Num := {|
  num := float;
  zero := 0%float;
  one := 1%float;
  two := 2%float;
  seven_tenths := 0x1.6666666666666p-1%float; (* the double nearest to 0.7 *)
  nadd := PrimFloat.add;
  nsub := PrimFloat.sub;
  nmul := PrimFloat.mul;
  ndiv := PrimFloat.div;
  nopp := PrimFloat.opp;
  nsqrt := PrimFloat.sqrt;
  neqb := PrimFloat.eqb;
  nltb := PrimFloat.ltb;
  nleb := PrimFloat.leb
|}.

(** ** Python dictionaries

    [d[k] = v] replaces the value in place when [k] is already a key and
    appends the entry otherwise; iteration follows insertion order. *)

Class EqKey (K : Type) : Type := key_eq_dec : forall a b : K, {a = b} + {a <> b}.
#[export] Hint Mode EqKey ! : typeclass_instances.

#[export] Instance string_EqKey : EqKey string := string_dec.

Module PyDict.
Section Dict.
Context {K V : Type} {EK : EqKey K}.

Definition t : Type := list (K * V).

Definition empty : t := [].

Fixpoint get (d : t) (k : K) : option V :=
  match d with
  | [] => None
  | (k', v) :: d' => if key_eq_dec k' k then Some v else get d' k
  end.

Definition mem (d : t) (k : K) : bool :=
  match get d k with Some _ => true | None => false end.

Fixpoint set (d : t) (k : K) (v : V) : t :=
  match d with
  | [] => [(k, v)]
  | (k', v') :: d' =>
      if key_eq_dec k' k then (k', v) :: d' else (k', v') :: set d' k v
  end.

Definition keys (d : t) : list K := map fst d.
Definition values (d : t) : list V := map snd d.
Definition items (d : t) : list (K * V) := d.
Definition len (d : t) : nat := length d.

(** A dictionary comprehension, or [dict(pairs)]: the pairs are inserted in
    order. *)
Definition of_items (l : list (K * V)) : t :=
  fold_left (fun d kv => set d (fst kv) (snd kv)) l empty.

(** The representation invariant of a dictionary: a key occurs once. *)
Definition wf (d : t) : Prop := NoDup (keys d).
End Dict.
Arguments t : clear implicits.
End PyDict.

(** ** Direction vocabulary *)

Inductive Direction : Type :=
| NORTH | SOUTH | EAST | WEST
| NORTHEAST | NORTHWEST | SOUTHEAST | SOUTHWEST
| UP | DOWN.

#[export] Instance Direction_EqKey : EqKey Direction.
Proof. unfold EqKey. decide equality. Defined.

(** [Direction.value]: the lowercase token of a member. *)
Definition value (d : Direction) : string :=
  match d with
  | NORTH => "north" | SOUTH => "south" | EAST => "east" | WEST => "west"
  | NORTHEAST => "northeast" | NORTHWEST => "northwest"
  | SOUTHEAST => "southeast" | SOUTHWEST => "southwest"
  | UP => "up" | DOWN => "down"
  end.

Definition all_directions : list Direction :=
  [NORTH; SOUTH; EAST; WEST; NORTHEAST; NORTHWEST; SOUTHEAST; SOUTHWEST; UP; DOWN].

(** [Direction(token)]: lookup of a member by value; [ValueError] when the
    token names no member. *)
Definition Direction_of (token : string) : result Direction :=
  match find (fun d => String.eqb (value d) token) all_directions with
  | Some d => Ok d
  | None => Raise (ValueError "not a valid Direction")
  end.

(** ** RoomExit *)

Module RoomExit.
Record t : Type := mk {
  direction : Direction;
  target_room_id : option string;
  is_discovered : bool
}.
End RoomExit.

(** ** Room *)

Module Room.
Section WithNum.
Context {N : Num}.

Record t : Type := mk {
  id : string;
  name : string;
  description : string;
  width : num;
  height : num;
  x : num;
  y : num;
  exits : PyDict.t Direction RoomExit.t;
  is_starting_room : bool;
  discovery_order : Z
}.

Definition with_exits (r : t) (e : PyDict.t Direction RoomExit.t) : t :=
  mk (id r) (name r) (description r) (width r) (height r) (x r) (y r)
     e (is_starting_room r) (discovery_order r).

Definition with_position (r : t) (x' y' : num) : t :=
  mk (id r) (name r) (description r) (width r) (height r) x' y'
     (exits r) (is_starting_room r) (discovery_order r).

(** [add_exit]: [is_discovered] is [target_room_id is not None]. *)
Definition add_exit (r : t) (direction : Direction)
    (target_room_id : option string) : t :=
  with_exits r
    (PyDict.set (exits r) direction
       (RoomExit.mk direction target_room_id
          (match target_room_id with Some _ => true | None => false end))).

Definition get_exit_position (r : t) (direction : Direction) : num * num :=
  let half_width := (width r / two)%num in
  let half_height := (height r / two)%num in
  match direction with
  | NORTH => (x r, y r + half_height)
  | SOUTH => (x r, y r - half_height)
  | EAST => (x r + half_width, y r)
  | WEST => (x r - half_width, y r)
  | NORTHEAST => (x r + half_width * seven_tenths, y r + half_height * seven_tenths)
  | NORTHWEST => (x r - half_width * seven_tenths, y r + half_height * seven_tenths)
  | SOUTHEAST => (x r + half_width * seven_tenths, y r - half_height * seven_tenths)
  | SOUTHWEST => (x r - half_width * seven_tenths, y r - half_height * seven_tenths)
  | UP => (x r, y r)
  | DOWN => (x r, y r)
  end%num.
End WithNum.
Arguments t : clear implicits.
End Room.

(** ** WorldMap: the graph store *)

Module WorldMap.
Section WithNum.
Context {N : Num}.

Record t : Type := mk {
  rooms : PyDict.t string (Room.t N);
  discovery_count : Z;
  starting_room_id : option string
}.

(** [WorldMap()] *)
Definition init : t := mk PyDict.empty 0%Z None.

Definition with_rooms (M : t) (rs : PyDict.t string (Room.t N)) : t :=
  mk rs (discovery_count M) (starting_room_id M).

(** In-place mutation of the room object stored under [k]. *)
Definition update_room (M : t) (k : string) (f : Room.t N -> Room.t N) : t :=
  match PyDict.get (rooms M) k with
  | Some r => with_rooms M (PyDict.set (rooms M) k (f r))
  | None => M
  end.

(** [add_room]: returns the store after the call and the room returned. *)
Definition add_room (M : t) (room_id name description : string)
    (width height : num) (is_starting_room : bool) : result (t * Room.t N) :=
  match PyDict.get (rooms M) room_id with
  | Some r => Ok (M, r)
  | None =>
      let count := (discovery_count M + 1)%Z in
      let room :=
        Room.mk room_id name description width height zero zero
                PyDict.empty is_starting_room count in
      let '(room, start) :=
        if is_starting_room || Nat.eqb (PyDict.len (rooms M)) 0
        then (Room.with_position room zero zero, Some room_id)
        else (room, starting_room_id M) in
      Ok (mk (PyDict.set (rooms M) room_id room) count start, room)
  end.

Definition _get_reverse_direction (direction : Direction) : option Direction :=
  match direction with
  | NORTH => Some SOUTH
  | SOUTH => Some NORTH
  | EAST => Some WEST
  | WEST => Some EAST
  | NORTHEAST => Some SOUTHWEST
  | SOUTHWEST => Some NORTHEAST
  | NORTHWEST => Some SOUTHEAST
  | SOUTHEAST => Some NORTHWEST
  | UP => Some DOWN
  | DOWN => Some UP
  end.

Definition _rooms_overlap (room1 room2 : Room.t N) : bool :=
  let r1_left := (Room.x room1 - Room.width room1 / two)%num in
  let r1_right := (Room.x room1 + Room.width room1 / two)%num in
  let r1_bottom := (Room.y room1 - Room.height room1 / two)%num in
  let r1_top := (Room.y room1 + Room.height room1 / two)%num in
  let r2_left := (Room.x room2 - Room.width room2 / two)%num in
  let r2_right := (Room.x room2 + Room.width room2 / two)%num in
  let r2_bottom := (Room.y room2 - Room.height room2 / two)%num in
  let r2_top := (Room.y room2 + Room.height room2 / two)%num in
  negb ((r1_right <=? r2_left)%num || (r2_right <=? r1_left)%num ||
        (r1_top <=? r2_bottom)%num || (r2_top <=? r1_bottom)%num).

(** The coordinates [_move_room_away_from_conflict] assigns. *)
Definition _move_room_away_from_conflict (moving_room blocking_room : Room.t N)
    : Room.t N :=
  let dx := (Room.x moving_room - Room.x blocking_room)%num in
  let dy := (Room.y moving_room - Room.y blocking_room)%num in
  let distance := nsqrt (dx * dx + dy * dy)%num in
  let '(dx, dy) :=
    if (distance == zero)%num then (one, zero)
    else ((dx / distance)%num, (dy / distance)%num) in
  let min_distance_x :=
    ((Room.width moving_room + Room.width blocking_room) / two + one)%num in
  let min_distance_y :=
    ((Room.height moving_room + Room.height blocking_room) / two + one)%num in
  let min_distance := pymax min_distance_x min_distance_y in
  Room.with_position moving_room
    (Room.x blocking_room + dx * min_distance)%num
    (Room.y blocking_room + dy * min_distance)%num.

(** The inner [for] loop of the resolver: the first room, in iteration
    order, whose id differs from the new room's and which it overlaps. *)
Definition first_conflict (existing : list (Room.t N)) (new_room : Room.t N)
    : option (Room.t N) :=
  find (fun existing_room =>
          negb (String.eqb (Room.id existing_room) (Room.id new_room))
          && _rooms_overlap new_room existing_room)
       existing.

(** The [while] loop of the resolver with [remaining] iterations left.
    [new_key] is the key under which the room being placed is stored. *)
Fixpoint resolve_loop (remaining : nat) (M : t) (new_key : string) : t :=
  match remaining with
  | O => M
  | S remaining' =>
      match PyDict.get (rooms M) new_key with
      | None => M
      | Some new_room =>
          match first_conflict (PyDict.values (rooms M)) new_room with
          | None => M
          | Some existing_room =>
              resolve_loop remaining'
                (update_room M new_key
                   (fun r => _move_room_away_from_conflict r existing_room))
                new_key
          end
      end
  end.

Definition max_iterations : nat := 10.

Definition _resolve_spatial_conflicts (M : t) (new_key : string) : t :=
  resolve_loop max_iterations M new_key.

(** The value of [iteration] when the [while] loop of the resolver ends,
    counted from the entry of the loop with [remaining] iterations left: the
    number of relocations made. *)
Fixpoint resolve_iterations (remaining : nat) (M : t) (new_key : string) : nat :=
  match remaining with
  | O => O
  | S remaining' =>
      match PyDict.get (rooms M) new_key with
      | None => O
      | Some new_room =>
          match first_conflict (PyDict.values (rooms M)) new_room with
          | None => O
          | Some existing_room =>
              S (resolve_iterations remaining'
                   (update_room M new_key
                      (fun r => _move_room_away_from_conflict r existing_room))
                   new_key)
          end
      end
  end.

Definition direction_vector (base_distance_x base_distance_y : num)
    (direction : Direction) : num * num :=
  match direction with
  | NORTH => (zero, base_distance_y)
  | SOUTH => (zero, - base_distance_y)
  | EAST => (base_distance_x, zero)
  | WEST => (- base_distance_x, zero)
  | NORTHEAST => (base_distance_x * seven_tenths, base_distance_y * seven_tenths)
  | NORTHWEST => (- base_distance_x * seven_tenths, base_distance_y * seven_tenths)
  | SOUTHEAST => (base_distance_x * seven_tenths, - base_distance_y * seven_tenths)
  | SOUTHWEST => (- base_distance_x * seven_tenths, - base_distance_y * seven_tenths)
  | UP => (zero, zero)
  | DOWN => (zero, zero)
  end%num.

(** [_position_room_relative_to]; the two rooms are named by their keys
    and read from the store, so a room connected to itself is one object. *)
Definition _position_room_relative_to (M : t)
    (target_key reference_key : string) (direction : Direction) : t :=
  match PyDict.get (rooms M) target_key, PyDict.get (rooms M) reference_key with
  | Some target_room, Some reference_room =>
      let base_distance_x :=
        ((Room.width reference_room + Room.width target_room) / two)%num in
      let base_distance_y :=
        ((Room.height reference_room + Room.height target_room) / two)%num in
      let '(offset_x, offset_y) :=
        direction_vector base_distance_x base_distance_y direction in
      let M' :=
        update_room M target_key
          (fun r => Room.with_position r
                      (Room.x reference_room + offset_x)%num
                      (Room.y reference_room + offset_y)%num) in
      _resolve_spatial_conflicts M' target_key
  | _, _ => M
  end.

(** The test guarding placement in [connect_rooms]. *)
Definition unplaced (to_room : Room.t N) : bool :=
  (Room.x to_room == zero)%num && (Room.y to_room == zero)%num
  && negb (Room.is_starting_room to_room).

Definition connect_rooms (M : t) (from_room_id : string)
    (direction : Direction) (to_room_id : string) : result t :=
  if negb (PyDict.mem (rooms M) from_room_id)
     || negb (PyDict.mem (rooms M) to_room_id)
  then Raise (ValueError "Both rooms must exist before connecting them")
  else
    let M1 :=
      update_room M from_room_id
        (fun r => Room.add_exit r direction (Some to_room_id)) in
    let M2 :=
      match _get_reverse_direction direction with
      | Some reverse_direction =>
          update_room M1 to_room_id
            (fun r => Room.add_exit r reverse_direction (Some from_room_id))
      | None => M1
      end in
    match PyDict.get (rooms M2) to_room_id with
    | Some to_room =>
        if unplaced to_room
        then Ok (_position_room_relative_to M2 to_room_id from_room_id direction)
        else Ok M2
    | None => Ok M2
    end.

Definition discover_exit (M : t) (room_id : string) (direction : Direction)
    : result t :=
  if PyDict.mem (rooms M) room_id
  then Ok (update_room M room_id (fun r => Room.add_exit r direction None))
  else Ok M.

Definition get_room (M : t) (room_id : string) : option (Room.t N) :=
  PyDict.get (rooms M) room_id.

(** [get_map_bounds]: [(min_x, min_y, max_x, max_y)] over the rectangles of
    all rooms, and four zeros for the empty store. *)
Definition get_map_bounds (M : t) : num * num * num * num :=
  match PyDict.values (rooms M) with
  | [] => (zero, zero, zero, zero)
  | room :: others =>
      let min_x :=
        pymin_of (Room.x room - Room.width room / two)%num
          (map (fun room => (Room.x room - Room.width room / two)%num) others) in
      let max_x :=
        pymax_of (Room.x room + Room.width room / two)%num
          (map (fun room => (Room.x room + Room.width room / two)%num) others) in
      let min_y :=
        pymin_of (Room.y room - Room.height room / two)%num
          (map (fun room => (Room.y room - Room.height room / two)%num) others) in
      let max_y :=
        pymax_of (Room.y room + Room.height room / two)%num
          (map (fun room => (Room.y room + Room.height room / two)%num) others) in
      (min_x, min_y, max_x, max_y)
  end.

(** *** Persistence codec

    The persisted record, with the field names of [to_dict].  Each value has
    the type [to_dict] writes; a field that may be missing from a stored
    record is an [option], and a field holding [null] is the inner [None]. *)

Record exit_data : Type := mk_exit_data {
  ed_direction : option string;
  ed_target_room_id : option (option string);
  ed_is_discovered : option bool
}.

Record room_data : Type := mk_room_data {
  rd_id : option string;
  rd_name : option string;
  rd_description : option string;
  rd_width : option num;
  rd_height : option num;
  rd_x : option num;
  rd_y : option num;
  rd_is_starting_room : option bool;
  rd_discovery_order : option Z;
  rd_exits : option (PyDict.t string exit_data)
}.

Record map_data : Type := mk_map_data {
  md_discovery_count : option Z;
  md_starting_room_id : option (option string);
  md_rooms : option (PyDict.t string room_data)
}.

Definition exit_to_dict (exit_info : RoomExit.t) : exit_data :=
  mk_exit_data (Some (value (RoomExit.direction exit_info)))
               (Some (RoomExit.target_room_id exit_info))
               (Some (RoomExit.is_discovered exit_info)).

Definition room_to_dict (room : Room.t N) : room_data :=
  mk_room_data
    (Some (Room.id room)) (Some (Room.name room)) (Some (Room.description room))
    (Some (Room.width room)) (Some (Room.height room))
    (Some (Room.x room)) (Some (Room.y room))
    (Some (Room.is_starting_room room)) (Some (Room.discovery_order room))
    (Some (PyDict.of_items
             (map (fun kv => (value (fst kv), exit_to_dict (snd kv)))
                  (PyDict.items (Room.exits room))))).

Definition to_dict (M : t) : map_data :=
  mk_map_data
    (Some (discovery_count M))
    (Some (starting_room_id M))
    (Some (PyDict.of_items
             (map (fun kv => (fst kv, room_to_dict (snd kv)))
                  (PyDict.items (rooms M))))).

(** Body of the first pass: the room is built from its stored geometry and
    flags, with no exits yet. *)
Definition create_room (rs : PyDict.t string (Room.t N))
    (entry : string * room_data) : result (PyDict.t string (Room.t N)) :=
  let '(room_id, rd) := entry in
  id <- item "id" (rd_id rd) ;;
  name <- item "name" (rd_name rd) ;;
  description <- item "description" (rd_description rd) ;;
  width <- item "width" (rd_width rd) ;;
  height <- item "height" (rd_height rd) ;;
  x <- item "x" (rd_x rd) ;;
  y <- item "y" (rd_y rd) ;;
  Ok (PyDict.set rs room_id
        (Room.mk id name description width height x y PyDict.empty
           (get_default (rd_is_starting_room rd) false)
           (get_default (rd_discovery_order rd) 0%Z))).

(** Body of the inner loop of the second pass. *)
Definition restore_exit (es : PyDict.t Direction RoomExit.t)
    (entry : string * exit_data) : result (PyDict.t Direction RoomExit.t) :=
  let '(direction_str, ed) := entry in
  direction <- Direction_of direction_str ;;
  token <- item "direction" (ed_direction ed) ;;
  exit_direction <- Direction_of token ;;
  Ok (PyDict.set es direction
        (RoomExit.mk exit_direction
           (get_default (ed_target_room_id ed) None)
           (get_default (ed_is_discovered ed) false))).

(** Body of the outer loop of the second pass. *)
Definition restore_exits (rs : PyDict.t string (Room.t N))
    (entry : string * room_data) : result (PyDict.t string (Room.t N)) :=
  let '(room_id, rd) := entry in
  room <- item room_id (PyDict.get rs room_id) ;;
  es <- for_each restore_exit
          (PyDict.items (get_default (rd_exits rd) PyDict.empty))
          (Room.exits room) ;;
  Ok (PyDict.set rs room_id (Room.with_exits room es)).

Definition from_dict (data : map_data) : result t :=
  let world_map :=
    mk PyDict.empty
       (get_default (md_discovery_count data) 0%Z)
       (get_default (md_starting_room_id data) None) in
  let stored := PyDict.items (get_default (md_rooms data) PyDict.empty) in
  rs <- for_each create_room stored (rooms world_map) ;;
  rs <- for_each restore_exits stored rs ;;
  Ok (with_rooms world_map rs).
End WithNum.
Arguments t : clear implicits.
End WorldMap.

(** ** MapVisualizer: the data handed to a graphical renderer *)

Module MapVisualizer.
Section WithNum.
Context {N : Num}.

Record room_view : Type := mk_room_view {
  rv_id : string;
  rv_name : string;
  rv_description : string;
  rv_x : num;
  rv_y : num;
  rv_width : num;
  rv_height : num;
  rv_is_starting_room : bool;
  rv_discovery_order : Z
}.

Record connection : Type := mk_connection {
  from_room : string;
  to_room : string;
  from_x : num;
  from_y : num;
  to_x : num;
  to_y : num;
  direction : string
}.

Record bounds : Type := mk_bounds {
  min_x : num;
  min_y : num;
  max_x : num;
  max_y : num;
  width : num;
  height : num
}.

Record graphical_data : Type := mk_graphical_data {
  rooms : list room_view;
  connections : list connection;
  map_bounds : bounds;
  starting_room_id : option string;
  total_rooms : nat
}.

(** The test [room_exit.is_discovered and room_exit.target_room_id]: the
    target is a string, and a non-empty one. *)
Definition is_connected (room_exit : RoomExit.t) : bool :=
  RoomExit.is_discovered room_exit
  && match RoomExit.target_room_id room_exit with
     | Some target => negb (String.eqb target "")
     | None => false
     end.

(** [get_exit_position] on the result of [_get_reverse_direction]: the
    lookup falls back on the room centre when given [None]. *)
Definition exit_position_of (room : Room.t N) (direction : option Direction)
    : num * num :=
  match direction with
  | Some d => Room.get_exit_position room d
  | None => (Room.x room, Room.y room)
  end.

Definition room_connections (M : WorldMap.t N) (room : Room.t N)
    : list connection :=
  flat_map
    (fun entry : Direction * RoomExit.t =>
       let '(direction, room_exit) := entry in
       if is_connected room_exit then
         let '(exit_x, exit_y) := Room.get_exit_position room direction in
         match RoomExit.target_room_id room_exit with
         | Some target_id =>
             match WorldMap.get_room M target_id with
             | Some target_room =>
                 let '(target_exit_x, target_exit_y) :=
                   exit_position_of target_room
                     (WorldMap._get_reverse_direction direction) in
                 [mk_connection (Room.id room) target_id exit_x exit_y
                    target_exit_x target_exit_y (value direction)]
             | None => []
             end
         | None => []
         end
       else [])
    (PyDict.items (Room.exits room)).

Definition room_view_of (room : Room.t N) : room_view :=
  mk_room_view (Room.id room) (Room.name room) (Room.description room)
    (Room.x room) (Room.y room) (Room.width room) (Room.height room)
    (Room.is_starting_room room) (Room.discovery_order room).

Definition get_graphical_data (M : WorldMap.t N) : graphical_data :=
  let rooms_data := map room_view_of (PyDict.values (WorldMap.rooms M)) in
  let connections_data :=
    flat_map (room_connections M) (PyDict.values (WorldMap.rooms M)) in
  let '(min_x, min_y, max_x, max_y) := WorldMap.get_map_bounds M in
  mk_graphical_data rooms_data connections_data
    (mk_bounds min_x min_y max_x max_y (max_x - min_x)%num (max_y - min_y)%num)
    (WorldMap.starting_room_id M)
    (PyDict.len (WorldMap.rooms M)).
End WithNum.
End MapVisualizer.

(** ** Call sequences

    A driver issues the three mutators one after the other.  A call that
    raises has not touched the store ([connect_rooms] checks both ids before
    any mutation), so the driver goes on from the store it had. *)

Section Driver.
Context {N : Num}.

Inductive call : Type :=
| AddRoom (room_id name description : string) (width height : num)
          (is_starting_room : bool)
| ConnectRooms (from_room_id : string) (direction : Direction)
               (to_room_id : string)
| DiscoverExit (room_id : string) (direction : Direction).

Definition perform (M : WorldMap.t N) (c : call) : result (WorldMap.t N) :=
  match c with
  | AddRoom room_id name description width height is_starting_room =>
      p <- WorldMap.add_room M room_id name description width height
             is_starting_room ;;
      Ok (fst p)
  | ConnectRooms from_room_id direction to_room_id =>
      WorldMap.connect_rooms M from_room_id direction to_room_id
  | DiscoverExit room_id direction =>
      WorldMap.discover_exit M room_id direction
  end.

Definition after_call (M : WorldMap.t N) (c : call) : WorldMap.t N :=
  match perform M c with
  | Ok M' => M'
  | Raise _ => M
  end.

Definition run_from (M : WorldMap.t N) (calls : list call) : WorldMap.t N :=
  fold_left after_call calls M.

Definition run (calls : list call) : WorldMap.t N :=
  run_from WorldMap.init calls.
End Driver.

(** ** Vocabulary of the statements *)

Section Vocabulary.
Context {N : Num}.
Implicit Types (M : WorldMap.t N) (r : Room.t N) (k : string).

(** [r'] is [r] with, at most, other coordinates. *)
Definition repositioned r r' : Prop :=
  r' = Room.with_position r (Room.x r') (Room.y r').

(** [M'] is [M] except that the room stored under [k] may have moved. *)
Record only_moves k M M' : Prop := {
  om_count : WorldMap.discovery_count M' = WorldMap.discovery_count M;
  om_start : WorldMap.starting_room_id M' = WorldMap.starting_room_id M;
  om_keys : PyDict.keys (WorldMap.rooms M') = PyDict.keys (WorldMap.rooms M);
  om_others : forall k', k' <> k ->
    PyDict.get (WorldMap.rooms M') k' = PyDict.get (WorldMap.rooms M) k';
  om_moved : forall r, PyDict.get (WorldMap.rooms M) k = Some r ->
    exists r', PyDict.get (WorldMap.rooms M') k = Some r' /\ repositioned r r'
}.

(** The store [connect_rooms] has once both exits are recorded. *)
Definition with_both_exits M (a : string) (d rd : Direction) (b : string)
    : WorldMap.t N :=
  WorldMap.update_room
    (WorldMap.update_room M a (fun r => Room.add_exit r d (Some b)))
    b (fun r => Room.add_exit r rd (Some a)).

(** Every room carrying the starting flag sits at the origin. *)
Definition flagged_at_origin M : Prop :=
  forall k r, WorldMap.get_room M k = Some r ->
    Room.is_starting_room r = true -> Room.x r = zero /\ Room.y r = zero.

(** [starting_room_id] names a room of the store, and that room carries the
    starting flag as soon as some room does. *)
Definition starting_room_named M : Prop :=
  exists k r,
    WorldMap.starting_room_id M = Some k /\
    WorldMap.get_room M k = Some r /\
    (forall k' r', WorldMap.get_room M k' = Some r' ->
       Room.is_starting_room r' = true -> Room.is_starting_room r = true).

(** The rooms carrying the starting flag. *)
Definition flagged_rooms M : list (Room.t N) :=
  filter (fun r => Room.is_starting_room r) (PyDict.values (WorldMap.rooms M)).

(** [M'] has the keys and the starting room id of [M]; every room keeps its
    flag, and a flagged room keeps its coordinates. *)
Record anchors_kept M M' : Prop := {
  ak_start : WorldMap.starting_room_id M' = WorldMap.starting_room_id M;
  ak_keys : PyDict.keys (WorldMap.rooms M') = PyDict.keys (WorldMap.rooms M);
  ak_rooms : forall k r, PyDict.get (WorldMap.rooms M) k = Some r ->
    exists r', PyDict.get (WorldMap.rooms M') k = Some r' /\
      Room.is_starting_room r' = Room.is_starting_room r /\
      (Room.is_starting_room r = true ->
       Room.x r' = Room.x r /\ Room.y r' = Room.y r)
}.

(** A store whose dictionaries are dictionaries: the room table and the
    exit table of every room hold each key once. *)
Definition valid M : Prop :=
  PyDict.wf (WorldMap.rooms M) /\
  forall k r, WorldMap.get_room M k = Some r -> PyDict.wf (Room.exits r).

(** A room as the first pass of [from_dict] creates it. *)
Definition without_exits r : Room.t N := Room.with_exits r PyDict.empty.

(** Membership in the closed set of direction tokens. *)
Definition is_direction_token (token : string) : bool :=
  existsb (fun d => String.eqb (value d) token) all_directions.

Definition present {A : Type} (v : option A) : bool :=
  match v with Some _ => true | None => false end.













(** *** The conflict resolver, in the words of its description

    Two rectangles overlap when they are separated neither on x nor on y,
    touching edges counting as separated.  A pass scans the other rooms in
    order; at the first one that overlaps the room being placed, that room
    is relocated to the blocking room's centre plus the unit vector from the
    blocking centre to its own centre (the +x unit vector when the centres
    coincide) times a separation.  Passes repeat until one finds no overlap
    or the budget is spent.

    The separation is written twice.  [spec_relocation] takes it as the
    description words it: the larger of the sum of the two half-widths and
    the sum of the two half-heights, plus the buffer margin.
    [relocation] takes it in the order the operations are made: each
    half-sum is the halved sum of the two extents, and the margin is added
    to each before the larger is taken.  The two agree where no operation
    rounds or overflows. *)

Definition left_edge r : num := (Room.x r - Room.width r / two)%num.
Definition right_edge r : num := (Room.x r + Room.width r / two)%num.
Definition bottom_edge r : num := (Room.y r - Room.height r / two)%num.
Definition top_edge r : num := (Room.y r + Room.height r / two)%num.

Definition spec_overlap (p q : Room.t N) : bool :=
  let separated_x :=
    (right_edge p <=? left_edge q)%num || (right_edge q <=? left_edge p)%num in
  let separated_y :=
    (top_edge p <=? bottom_edge q)%num || (top_edge q <=? bottom_edge p)%num in
  negb separated_x && negb separated_y.

Definition spec_unit_vector (blocking placed : Room.t N) : num * num :=
  let vx := (Room.x placed - Room.x blocking)%num in
  let vy := (Room.y placed - Room.y blocking)%num in
  let norm := nsqrt (vx * vx + vy * vy)%num in
  if (norm == zero)%num then (one, zero)
  else ((vx / norm)%num, (vy / norm)%num).

Definition min_separation (placed blocking : Room.t N) : num :=
  pymax (Room.width placed / two + Room.width blocking / two)%num
        (Room.height placed / two + Room.height blocking / two)%num.

Definition buffer_margin : num := one.

Definition spec_relocation (placed blocking : Room.t N) : num * num :=
  let '(ux, uy) := spec_unit_vector blocking placed in
  let reach := (min_separation placed blocking + buffer_margin)%num in
  ((Room.x blocking + ux * reach)%num, (Room.y blocking + uy * reach)%num).

Definition margin_separation (placed blocking : Room.t N) : num :=
  pymax ((Room.width placed + Room.width blocking) / two + buffer_margin)%num
        ((Room.height placed + Room.height blocking) / two + buffer_margin)%num.

Definition relocation (placed blocking : Room.t N) : num * num :=
  let '(ux, uy) := spec_unit_vector blocking placed in
  let reach := margin_separation placed blocking in
  ((Room.x blocking + ux * reach)%num, (Room.y blocking + uy * reach)%num).

(** The store with the room under [k] moved to [xy]. *)
Definition place M k (xy : num * num) : WorldMap.t N :=
  WorldMap.update_room M k (fun r => Room.with_position r (fst xy) (snd xy)).

Definition other_room (placed other : Room.t N) : bool :=
  negb (String.eqb (Room.id other) (Room.id placed)).

Inductive spec_resolves : nat -> WorldMap.t N -> string -> WorldMap.t N -> Prop :=
| sr_bound M k :
    spec_resolves 0 M k M
| sr_clear passes M k placed :
    WorldMap.get_room M k = Some placed ->
    (forall other, In other (PyDict.values (WorldMap.rooms M)) ->
       other_room placed other = true -> spec_overlap placed other = false) ->
    spec_resolves passes M k M
| sr_relocate passes M k placed scanned blocking rest M' :
    WorldMap.get_room M k = Some placed ->
    PyDict.values (WorldMap.rooms M) = scanned ++ blocking :: rest ->
    (forall other, In other scanned ->
       other_room placed other = true -> spec_overlap placed other = false) ->
    other_room placed blocking = true ->
    spec_overlap placed blocking = true ->
    spec_resolves passes (place M k (relocation placed blocking)) k M' ->
    spec_resolves (S passes) M k M'.
End Vocabulary.

(** ** Concrete stores (binary64 arithmetic) *)

Definition empty_store : WorldMap.t float_num := WorldMap.init.

(** One starting room. *)
Definition one_room : WorldMap.t float_num :=
  run [AddRoom "a" "A" "d" 5%float 5%float true].

(** The two rooms of scenario B, not yet connected. *)
Definition two_rooms : WorldMap.t float_num :=
  run [AddRoom "a" "A" "d" 10%float 8%float true;
       AddRoom "b" "B" "d" 6%float 6%float false].

(** Scenario B. *)
Definition scenario_B : WorldMap.t float_num :=
  run [AddRoom "a" "A" "d" 10%float 8%float true;
       AddRoom "b" "B" "d" 6%float 6%float false;
       ConnectRooms "a" NORTH "b"].

(** The store of the persistence test: three rooms, two connections and an
    unexplored exit. *)
Definition persisted_store : WorldMap.t float_num :=
  run [AddRoom "room1" "First Room" "Starting point." 5%float 5%float true;
       AddRoom "room2" "Second Room" "Connected room." 7%float 4%float false;
       AddRoom "room3" "Third Room" "Another room." 3%float 8%float false;
       ConnectRooms "room1" NORTH "room2";
       ConnectRooms "room2" EAST "room3";
       DiscoverExit "room3" SOUTH].

(** Two rooms with the same centre. *)
Definition coincident_rooms_binary64 : WorldMap.t float_num :=
  WorldMap.mk
    [("a", Room.mk "a" "A" "d" 10%float 8%float 0%float 0%float [] true 1%Z);
     ("b", Room.mk "b" "B" "d" 6%float 6%float 0%float 0%float [] false 2%Z)]
    2%Z (Some "a").

(** Scenario D: three 20 x 20 rooms, the second east and the third north of
    the first. *)
Definition scenario_D : WorldMap.t float_num :=
  run [AddRoom "room1" "Room 1" "Large room." 20%float 20%float true;
       AddRoom "room2" "Room 2" "Another large room." 20%float 20%float false;
       AddRoom "room3" "Room 3" "Third large room." 20%float 20%float false;
       ConnectRooms "room1" EAST "room2";
       ConnectRooms "room1" NORTH "room3"].

(** Two rooms of the largest finite width and of height 1. *)
Definition huge_rooms : WorldMap.t float_num :=
  run [AddRoom "a" "A" "d" 0x1.fffffffffffffp1023%float 1%float true;
       AddRoom "b" "B" "d" 0x1.fffffffffffffp1023%float 1%float false].




(** The calls of scenario B. *)
Definition scenario_B_calls : list (call (N := float_num)) :=
  [AddRoom "a" "A" "d" 10%float 8%float true;
   AddRoom "b" "B" "d" 6%float 6%float false;
   ConnectRooms "a" NORTH "b"].

(** The connection a renderer is handed for scenario B, from the north exit
    of ["a"] to the south exit of ["b"]. *)
Definition scenario_B_connection : MapVisualizer.connection (N := float_num) :=
  MapVisualizer.mk_connection "a" "b" 0%float 4%float 0%float 4%float "north".

(** Two rooms added without the starting flag: the first one is recorded as
    [starting_room_id]. *)
Definition unflagged_start : WorldMap.t float_num :=
  run [AddRoom "a" "A" "d" 10%float 8%float false;
       AddRoom "b" "B" "d" 6%float 6%float false].

(** The second room is then connected south to the first. *)
Definition unflagged_start_connected : WorldMap.t float_num :=
  run [AddRoom "a" "A" "d" 10%float 8%float false;
       AddRoom "b" "B" "d" 6%float 6%float false;
       ConnectRooms "b" SOUTH "a"].

(** A first room added without the starting flag. *)
Definition lone_unflagged : WorldMap.t float_num :=
  run [AddRoom "a" "A" "d" 2%float 2%float false].

(** Two rooms, each added with the starting flag. *)
Definition two_flagged : WorldMap.t float_num :=
  run [AddRoom "a" "A" "d" 2%float 2%float true;
       AddRoom "b" "B" "d" 2%float 2%float true].

(** ** Vocabulary of the further properties *)

Section FurtherVocabulary.
Context {N : Num}.
Implicit Types (M : WorldMap.t N) (r : Room.t N) (k : string).

(** What [connect_rooms] and [discover_exit] never touch in a room: its key
    and every field but the exits and the coordinates. *)
Definition room_identity (entry : string * Room.t N)
    : string * string * string * string * num * num * bool * Z :=
  (fst entry, Room.id (snd entry), Room.name (snd entry),
   Room.description (snd entry), Room.width (snd entry),
   Room.height (snd entry), Room.is_starting_room (snd entry),
   Room.discovery_order (snd entry)).

(** A projection of the room table that reads neither exits nor
    coordinates. *)
Definition blind_to_exits_and_position {B : Type}
    (g : string * Room.t N -> B) : Prop :=
  (forall k r x y, g (k, Room.with_position r x y) = g (k, r)) /\
  (forall k r e, g (k, Room.with_exits r e) = g (k, r)).

(** The rooms are numbered 1, 2, ... in insertion order, and the counter is
    the number of rooms. *)
Definition numbered_in_order M : Prop :=
  WorldMap.discovery_count M = Z.of_nat (PyDict.len (WorldMap.rooms M)) /\
  map Room.discovery_order (PyDict.values (WorldMap.rooms M)) =
  map Z.of_nat (seq 1 (PyDict.len (WorldMap.rooms M))).

(** Every exit sits in the slot of its own direction, is discovered exactly
    when it has a target, and its target is a room of the store. *)
Definition exits_sound M : Prop :=
  forall k r d e,
    WorldMap.get_room M k = Some r ->
    PyDict.get (Room.exits r) d = Some e ->
    RoomExit.direction e = d /\
    RoomExit.is_discovered e = present (RoomExit.target_room_id e) /\
    (forall target, RoomExit.target_room_id e = Some target ->
                    PyDict.mem (WorldMap.rooms M) target = true).

(** The room stored under [k] after [connect_rooms a d b], as far as its
    exits go. *)
Definition with_new_exits (a : string) (d rd : Direction) (b : string)
    k r : Room.t N :=
  let r1 := if key_eq_dec a k then Room.add_exit r d (Some b) else r in
  if key_eq_dec b k then Room.add_exit r1 rd (Some a) else r1.

(** The exits a renderer draws as connections. *)
Definition connected_exits M : list RoomExit.t :=
  flat_map
    (fun r => filter MapVisualizer.is_connected (PyDict.values (Room.exits r)))
    (PyDict.values (WorldMap.rooms M)).

(** The four edges of every room of the store. *)
Definition room_edges M : list num :=
  flat_map (fun r => [left_edge r; bottom_edge r; right_edge r; top_edge r])
    (PyDict.values (WorldMap.rooms M)).

(** On the values [vs] the comparisons [<=] and [<] behave as those of a
    total order: [<=] is reflexive and transitive, [<] implies [<=], and of
    two values one is [<=] the other. *)
Definition total_order_on (vs : list num) : Prop :=
  forall a b c, In a vs -> In b vs -> In c vs ->
    (a <=? a)%num = true /\
    ((a <=? b)%num = true -> (b <=? c)%num = true -> (a <=? c)%num = true) /\
    ((a <? b)%num = true -> (a <=? b)%num = true) /\
    ((a <? b)%num = false -> (b <=? a)%num = true).

(** The same, decided by running the comparisons on every triple. *)
Definition total_order_onb (vs : list num) : bool :=
  forallb (fun a => forallb (fun b => forallb (fun c =>
    (a <=? a)%num
    && implb ((a <=? b)%num && (b <=? c)%num) (a <=? c)%num
    && implb (a <? b)%num (a <=? b)%num
    && implb (negb (a <? b)%num) (b <=? a)%num) vs) vs) vs.
End FurtherVocabulary.

(** * Properties *)

(** ** Dictionaries *)

Section DictFacts.
Context {K V : Type} {EK : EqKey K}.
Implicit Types (d : PyDict.t K V) (k : K) (v : V).

Lemma get_set_same d k v : PyDict.get (PyDict.set d k v) k = Some v.
Proof.
  induction d as [|[k' v'] d IH]; simpl.
  - destruct (key_eq_dec k k); congruence.
  - destruct (key_eq_dec k' k) as [E|E]; simpl;
      destruct (key_eq_dec k' k); congruence.
Qed.

Lemma get_set_other d k k' v :
  k <> k' -> PyDict.get (PyDict.set d k v) k' = PyDict.get d k'.
Proof.
  intros D. induction d as [|[k0 v0] d IH]; simpl.
  - destruct (key_eq_dec k k'); congruence.
  - destruct (key_eq_dec k0 k) as [E|E]; simpl;
      destruct (key_eq_dec k0 k'); congruence.
Qed.

Lemma get_set d k k' v :
  PyDict.get (PyDict.set d k v) k' =
  if key_eq_dec k k' then Some v else PyDict.get d k'.
Proof.
  destruct (key_eq_dec k k') as [<-|D].
  - apply get_set_same.
  - now apply get_set_other.
Qed.

Lemma get_none_keys d k : PyDict.get d k = None <-> ~ In k (PyDict.keys d).
Proof.
  induction d as [|[k' v'] d IH]; simpl.
  - tauto.
  - destruct (key_eq_dec k' k) as [E|E].
    + split; [discriminate | intros H; exfalso; apply H; now left].
    + rewrite IH. tauto.
Qed.

Lemma get_some_keys d k v : PyDict.get d k = Some v -> In k (PyDict.keys d).
Proof.
  intros H. destruct (in_dec key_eq_dec k (PyDict.keys d)) as [I|I]; [exact I|].
  apply get_none_keys in I. congruence.
Qed.

Lemma in_get_wf d k v : PyDict.wf d -> In (k, v) d -> PyDict.get d k = Some v.
Proof.
  unfold PyDict.wf. induction d as [|[k' v'] d IH]; simpl; [tauto|].
  intros W [E|I].
  - injection E as -> ->. destruct (key_eq_dec k k); congruence.
  - inversion W as [|? ? NI W']; subst.
    destruct (key_eq_dec k' k) as [<-|D].
    + exfalso. apply NI. change k' with (fst (k', v)). now apply in_map.
    + now apply IH.
Qed.

Lemma set_absent d k v : PyDict.get d k = None -> PyDict.set d k v = d ++ [(k, v)].
Proof.
  induction d as [|[k' v'] d IH]; simpl; [reflexivity|].
  destruct (key_eq_dec k' k); [discriminate|].
  intros H. now rewrite IH.
Qed.

Lemma keys_set_present d k v v0 :
  PyDict.get d k = Some v0 -> PyDict.keys (PyDict.set d k v) = PyDict.keys d.
Proof.
  induction d as [|[k' v'] d IH]; simpl; [discriminate|].
  destruct (key_eq_dec k' k); simpl; [reflexivity|].
  intros H. f_equal. now apply IH.
Qed.

Lemma wf_set d k v : PyDict.wf d -> PyDict.wf (PyDict.set d k v).
Proof.
  unfold PyDict.wf. intros W.
  destruct (PyDict.get d k) as [v0|] eqn:G.
  - now rewrite keys_set_present with (v0 := v0).
  - rewrite set_absent by exact G. unfold PyDict.keys. rewrite map_app. simpl.
    apply NoDup_app; [exact W | repeat constructor; intros [] |].
    intros k' I [<-|[]]. now apply get_none_keys in G.
Qed.

Lemma set_head_same (d : PyDict.t K V) k v v0 :
  PyDict.set ((k, v0) :: d) k v = (k, v) :: d.
Proof. simpl. destruct (key_eq_dec k k); congruence. Qed.

Lemma set_skip_prefix (p d : PyDict.t K V) k v :
  ~ In k (PyDict.keys p) -> PyDict.set (p ++ d) k v = p ++ PyDict.set d k v.
Proof.
  induction p as [|[k' v'] p IH]; simpl; [reflexivity|].
  intros H. destruct (key_eq_dec k' k) as [E|E]; [tauto|].
  f_equal. apply IH. tauto.
Qed.

Lemma get_skip_prefix (p d : PyDict.t K V) k :
  ~ In k (PyDict.keys p) -> PyDict.get (p ++ d) k = PyDict.get d k.
Proof.
  induction p as [|[k' v'] p IH]; simpl; [reflexivity|].
  intros H. destruct (key_eq_dec k' k) as [E|E]; [tauto|].
  apply IH. tauto.
Qed.

(** Inserting the items of a well-formed dictionary after a dictionary with
    other keys appends them in order. *)
Lemma fold_set_append (l acc : PyDict.t K V) :
  NoDup (PyDict.keys (acc ++ l)) ->
  fold_left (fun d kv => PyDict.set d (fst kv) (snd kv)) l acc = acc ++ l.
Proof.
  revert acc. induction l as [|[k v] l IH]; intros acc W; simpl.
  - now rewrite app_nil_r.
  - assert (A : PyDict.get acc k = None).
    { apply get_none_keys. intros I.
      unfold PyDict.keys in W. rewrite map_app in W. simpl in W.
      apply NoDup_remove_2 in W. apply W. apply in_or_app. now left. }
    rewrite set_absent by exact A.
    change ((k, v) :: l) with ([(k, v)] ++ l) in *.
    rewrite app_assoc in *. now apply IH.
Qed.

Lemma of_items_wf (l : PyDict.t K V) : PyDict.wf l -> PyDict.of_items l = l.
Proof. intros W. unfold PyDict.of_items. now rewrite fold_set_append. Qed.
End DictFacts.

(** ** The store under in-place updates *)

Section StoreFacts.
Context {N : Num}.
Implicit Types (M : WorldMap.t N) (r : Room.t N) (k : string).

Lemma get_update_room M k k' (f : Room.t N -> Room.t N) :
  PyDict.get (WorldMap.rooms (WorldMap.update_room M k f)) k' =
  if key_eq_dec k k' then option_map f (PyDict.get (WorldMap.rooms M) k)
  else PyDict.get (WorldMap.rooms M) k'.
Proof.
  unfold WorldMap.update_room.
  destruct (PyDict.get (WorldMap.rooms M) k) as [r|] eqn:G; simpl.
  - apply get_set.
  - destruct (key_eq_dec k k') as [<-|D]; [exact G | reflexivity].
Qed.

Lemma keys_update_room M k (f : Room.t N -> Room.t N) :
  PyDict.keys (WorldMap.rooms (WorldMap.update_room M k f)) =
  PyDict.keys (WorldMap.rooms M).
Proof.
  unfold WorldMap.update_room.
  destruct (PyDict.get (WorldMap.rooms M) k) as [r|] eqn:G; simpl.
  - now apply keys_set_present with (v0 := r).
  - reflexivity.
Qed.

Lemma count_update_room M k (f : Room.t N -> Room.t N) :
  WorldMap.discovery_count (WorldMap.update_room M k f) =
  WorldMap.discovery_count M.
Proof.
  unfold WorldMap.update_room.
  now destruct (PyDict.get (WorldMap.rooms M) k).
Qed.

Lemma start_update_room M k (f : Room.t N -> Room.t N) :
  WorldMap.starting_room_id (WorldMap.update_room M k f) =
  WorldMap.starting_room_id M.
Proof.
  unfold WorldMap.update_room.
  now destruct (PyDict.get (WorldMap.rooms M) k).
Qed.

Lemma repositioned_refl r : repositioned r r.
Proof. now destruct r. Qed.

Lemma repositioned_trans r1 r2 r3 :
  repositioned r1 r2 -> repositioned r2 r3 -> repositioned r1 r3.
Proof.
  unfold repositioned. intros H12 H23. rewrite H23 at 1. rewrite H12.
  reflexivity.
Qed.

Lemma repositioned_with_position r a b :
  repositioned r (Room.with_position r a b).
Proof. reflexivity. Qed.

Lemma repositioned_move r b :
  repositioned r (WorldMap._move_room_away_from_conflict r b).
Proof.
  unfold WorldMap._move_room_away_from_conflict.
  destruct (neqb _ _); apply repositioned_with_position.
Qed.

Lemma only_moves_refl k M : only_moves k M M.
Proof.
  split; auto. intros r G. exists r. split; [exact G | apply repositioned_refl].
Qed.

Lemma only_moves_trans k M1 M2 M3 :
  only_moves k M1 M2 -> only_moves k M2 M3 -> only_moves k M1 M3.
Proof.
  intros [c1 s1 k1 o1 m1] [c2 s2 k2 o2 m2]. split; try congruence.
  - intros k' D. rewrite o2, o1; auto.
  - intros r G. destruct (m1 r G) as (r2 & G2 & R2).
    destruct (m2 r2 G2) as (r3 & G3 & R3).
    exists r3. split; [exact G3 | eapply repositioned_trans; eauto].
Qed.

Lemma only_moves_update k M (f : Room.t N -> Room.t N) :
  (forall r, repositioned r (f r)) ->
  only_moves k M (WorldMap.update_room M k f).
Proof.
  intros Hf. split.
  - apply count_update_room.
  - apply start_update_room.
  - apply keys_update_room.
  - intros k' D. rewrite get_update_room.
    destruct (key_eq_dec k k'); congruence.
  - intros r G. exists (f r). split; [|apply Hf].
    rewrite get_update_room, G. destruct (key_eq_dec k k); simpl; congruence.
Qed.

Lemma resolve_loop_only_moves n M k :
  only_moves k M (WorldMap.resolve_loop n M k).
Proof.
  revert M. induction n as [|n IH]; intros M; simpl.
  - apply only_moves_refl.
  - destruct (PyDict.get (WorldMap.rooms M) k) as [new_room|];
      [|apply only_moves_refl].
    destruct (WorldMap.first_conflict _ new_room) as [b|];
      [|apply only_moves_refl].
    eapply only_moves_trans; [|apply IH].
    apply only_moves_update. intros r. apply repositioned_move.
Qed.

Lemma position_only_moves M target reference d :
  only_moves target M
    (WorldMap._position_room_relative_to M target reference d).
Proof.
  unfold WorldMap._position_room_relative_to.
  destruct (PyDict.get (WorldMap.rooms M) target) as [tr|];
    [|apply only_moves_refl].
  destruct (PyDict.get (WorldMap.rooms M) reference) as [rr|];
    [|apply only_moves_refl].
  destruct (WorldMap.direction_vector _ _ d) as [ox oy].
  eapply only_moves_trans; [|apply resolve_loop_only_moves].
  apply only_moves_update. intros r. apply repositioned_with_position.
Qed.

Lemma reverse_direction_total d :
  exists rd, WorldMap._get_reverse_direction d = Some rd /\ rd <> d.
Proof. destruct d; eexists; (split; [reflexivity | discriminate]). Qed.

Lemma mem_true_get M k :
  PyDict.mem (WorldMap.rooms M) k = true ->
  exists r, PyDict.get (WorldMap.rooms M) k = Some r.
Proof.
  unfold PyDict.mem. destruct (PyDict.get _ k) as [r|]; [eauto | discriminate].
Qed.

(** [connect_rooms], when it returns: the two exits are recorded and then,
    at most, the room stored under [to_room_id] moves; it does not move when
    the placement test fails. *)
Lemma connect_rooms_inv M a d b M' :
  WorldMap.connect_rooms M a d b = Ok M' ->
  exists rd ra rb,
    WorldMap._get_reverse_direction d = Some rd /\ rd <> d /\
    PyDict.get (WorldMap.rooms M) a = Some ra /\
    PyDict.get (WorldMap.rooms M) b = Some rb /\
    only_moves b (with_both_exits M a d rd b) M' /\
    (forall r2, PyDict.get (WorldMap.rooms (with_both_exits M a d rd b)) b = Some r2 ->
       WorldMap.unplaced r2 = false -> M' = with_both_exits M a d rd b).
Proof.
  unfold WorldMap.connect_rooms. intros H.
  destruct (PyDict.mem (WorldMap.rooms M) a) eqn:Ma; simpl in H; [|discriminate].
  destruct (PyDict.mem (WorldMap.rooms M) b) eqn:Mb; simpl in H; [|discriminate].
  destruct (mem_true_get _ _ Ma) as [ra Ga].
  destruct (mem_true_get _ _ Mb) as [rb Gb].
  destruct (reverse_direction_total d) as (rd & Hrd & Drd).
  rewrite Hrd in H. fold (with_both_exits M a d rd b) in H.
  exists rd, ra, rb. repeat (split; [assumption|]).
  destruct (PyDict.get (WorldMap.rooms (with_both_exits M a d rd b)) b)
    as [to_room|] eqn:G2.
  - destruct (WorldMap.unplaced to_room) eqn:U; injection H as <-.
    + split; [apply position_only_moves|].
      intros r2 [= <-]. congruence.
    + split; [apply only_moves_refl | reflexivity].
  - injection H as <-. split; [apply only_moves_refl | reflexivity].
Qed.

Lemma connect_rooms_returns M a d b :
  PyDict.mem (WorldMap.rooms M) a = true ->
  PyDict.mem (WorldMap.rooms M) b = true ->
  exists M', WorldMap.connect_rooms M a d b = Ok M'.
Proof.
  intros Ma Mb. unfold WorldMap.connect_rooms. rewrite Ma, Mb. simpl.
  destruct (PyDict.get _ b) as [to_room|]; [|eauto].
  destruct (WorldMap.unplaced to_room); eauto.
Qed.

Lemma get_with_both_exits M a d rd b k :
  PyDict.get (WorldMap.rooms (with_both_exits M a d rd b)) k =
  option_map
    (fun r =>
       let r1 := if key_eq_dec a k then Room.add_exit r d (Some b) else r in
       if key_eq_dec b k then Room.add_exit r1 rd (Some a) else r1)
    (PyDict.get (WorldMap.rooms M) k).
Proof.
  unfold with_both_exits. rewrite get_update_room.
  destruct (key_eq_dec b k) as [<-|Db].
  - rewrite get_update_room.
    destruct (key_eq_dec a b) as [<-|Da];
      now destruct (PyDict.get (WorldMap.rooms M) _).
  - rewrite get_update_room.
    destruct (key_eq_dec a k) as [<-|Da];
      now destruct (PyDict.get (WorldMap.rooms M) _).
Qed.
End StoreFacts.

(** ** Graph store mutators *)

Section Mutators.
Context {N : Num}.
Implicit Types (M : WorldMap.t N) (r : Room.t N) (k : string).

Lemma repositioned_exits r r' : repositioned r r' -> Room.exits r' = Room.exits r.
Proof. intros ->. reflexivity. Qed.

Lemma repositioned_flag r r' :
  repositioned r r' -> Room.is_starting_room r' = Room.is_starting_room r.
Proof. intros ->. reflexivity. Qed.

Lemma repositioned_extent r r' :
  repositioned r r' ->
  Room.width r' = Room.width r /\ Room.height r' = Room.height r.
Proof. intros ->. split; reflexivity. Qed.

Lemma add_exit_get r d target :
  PyDict.get (Room.exits (Room.add_exit r d target)) d =
  Some (RoomExit.mk d target
          (match target with Some _ => true | None => false end)).
Proof. unfold Room.add_exit. simpl. apply get_set_same. Qed.

Lemma add_exit_get_other r d d' target :
  d <> d' ->
  PyDict.get (Room.exits (Room.add_exit r d target)) d' =
  PyDict.get (Room.exits r) d'.
Proof. intros D. unfold Room.add_exit. simpl. now apply get_set_other. Qed.


Lemma discover_exit_eq M room_id d :
  WorldMap.discover_exit M room_id d =
  Ok (WorldMap.update_room M room_id (fun r => Room.add_exit r d None)).
Proof.
  unfold WorldMap.discover_exit, PyDict.mem, WorldMap.update_room.
  now destruct (PyDict.get (WorldMap.rooms M) room_id).
Qed.

(** C7 (amended).  [discover_exit] raises nothing.  On an id the store does
    not hold it returns with the store as it was; on an id the store holds
    it puts, in the given direction of that room, an exit with no target and
    [is_discovered = false] in place of whatever the slot held, and leaves
    the other rooms alone. *)
Theorem discover_exit_spec M room_id d :
  (PyDict.mem (WorldMap.rooms M) room_id = false ->
   WorldMap.discover_exit M room_id d = Ok M) /\
  (forall r, WorldMap.get_room M room_id = Some r ->
   exists M',
     WorldMap.discover_exit M room_id d = Ok M' /\
     WorldMap.get_room M' room_id = Some (Room.add_exit r d None) /\
     PyDict.get (Room.exits (Room.add_exit r d None)) d =
       Some (RoomExit.mk d None false) /\
     (forall d', d' <> d ->
        PyDict.get (Room.exits (Room.add_exit r d None)) d' =
        PyDict.get (Room.exits r) d') /\
     (forall k, k <> room_id ->
        WorldMap.get_room M' k = WorldMap.get_room M k)).
Proof.
  split.
  - unfold WorldMap.discover_exit. now intros ->.
  - unfold WorldMap.get_room. intros r G. eexists. split; [apply discover_exit_eq|].
    split; [|split; [|split]].
    + rewrite get_update_room, G.
      destruct (key_eq_dec room_id room_id); simpl; congruence.
    + apply add_exit_get.
    + intros d' D. apply add_exit_get_other. congruence.
    + intros k D. rewrite get_update_room.
      destruct (key_eq_dec room_id k); congruence.
Qed.

Lemma add_room_inv M room_id name description w h flag :
  exists M' r,
    WorldMap.add_room M room_id name description w h flag = Ok (M', r) /\
    ((PyDict.get (WorldMap.rooms M) room_id = Some r /\ M' = M) \/
     (PyDict.get (WorldMap.rooms M) room_id = None /\
      r = Room.mk room_id name description w h zero zero PyDict.empty flag
            (WorldMap.discovery_count M + 1)%Z /\
      M' = WorldMap.mk (PyDict.set (WorldMap.rooms M) room_id r)
             (WorldMap.discovery_count M + 1)%Z
             (if flag || Nat.eqb (PyDict.len (WorldMap.rooms M)) 0
              then Some room_id else WorldMap.starting_room_id M))).
Proof.
  unfold WorldMap.add_room.
  destruct (PyDict.get (WorldMap.rooms M) room_id) as [r|] eqn:G.
  - exists M, r. split; [reflexivity|]. now left.
  - destruct (flag || Nat.eqb (PyDict.len (WorldMap.rooms M)) 0);
      do 2 eexists; (split; [reflexivity|]); right; repeat split.
Qed.

(** C3 (amended).  [add_room] checks neither width nor height and raises
    nothing: for every width and height the call returns a room, which the
    store holds under the given id afterwards; when the id is new, that room
    has the width and height passed and is appended to the store. *)
Theorem add_room_accepts_any_extent M room_id name description w h flag :
  exists M' r,
    WorldMap.add_room M room_id name description w h flag = Ok (M', r) /\
    WorldMap.get_room M' room_id = Some r /\
    (WorldMap.get_room M room_id = None ->
     Room.width r = w /\ Room.height r = h /\
     WorldMap.rooms M' = WorldMap.rooms M ++ [(room_id, r)]).
Proof.
  destruct (add_room_inv M room_id name description w h flag)
    as (M' & r & E & [[G HM]|(G & Hr & HM)]);
    exists M', r; (split; [exact E|]); unfold WorldMap.get_room.
  - subst M'. split; [exact G|]. congruence.
  - split.
    + rewrite HM. simpl. apply get_set_same.
    + intros _. rewrite HM, Hr. simpl. repeat split.
      now apply set_absent.
Qed.

Lemma add_exit_repositioned_fields r d target :
  Room.x (Room.add_exit r d target) = Room.x r /\
  Room.y (Room.add_exit r d target) = Room.y r /\
  Room.width (Room.add_exit r d target) = Room.width r /\
  Room.height (Room.add_exit r d target) = Room.height r /\
  Room.is_starting_room (Room.add_exit r d target) = Room.is_starting_room r.
Proof. repeat split. Qed.

(** What [connect_rooms] leaves of a room: its extent and flag always, its
    coordinates unless it is the to-room and the placement test holds. *)
Lemma connect_rooms_room M a d b M' k r :
  WorldMap.connect_rooms M a d b = Ok M' ->
  PyDict.get (WorldMap.rooms M) k = Some r ->
  exists r',
    PyDict.get (WorldMap.rooms M') k = Some r' /\
    Room.width r' = Room.width r /\ Room.height r' = Room.height r /\
    Room.is_starting_room r' = Room.is_starting_room r /\
    (k <> b \/ Room.is_starting_room r = true ->
     Room.x r' = Room.x r /\ Room.y r' = Room.y r) /\
    (k <> a -> k <> b -> r' = r).
Proof.
  intros H G.
  destruct (connect_rooms_inv _ _ _ _ H)
    as (rd & ra & rb & Hrd & Drd & Ga & Gb & OM & Stay).
  pose proof (get_with_both_exits M a d rd b k) as G2.
  rewrite G in G2. simpl in G2.
  destruct (key_eq_dec b k) as [<-|Db].
  - destruct (om_moved OM G2) as (r' & G' & R').
    exists r'. split; [exact G'|].
    destruct (repositioned_extent R') as [W' H'].
    rewrite W', H', (repositioned_flag R').
    split; [now destruct (key_eq_dec a b)|].
    split; [now destruct (key_eq_dec a b)|].
    split; [now destruct (key_eq_dec a b)|].
    split; [|congruence].
    intros [C|F]; [congruence|].
    assert (U : WorldMap.unplaced
                  (Room.add_exit
                     (if key_eq_dec a b then Room.add_exit r d (Some b) else r)
                     rd (Some a)) = false).
    { unfold WorldMap.unplaced.
      replace (Room.is_starting_room _) with true
        by (now destruct (key_eq_dec a b)).
      simpl. now rewrite !andb_false_r. }
    rewrite (Stay _ G2 U) in G'. rewrite G2 in G'. injection G' as <-.
    now destruct (key_eq_dec a b).
  - rewrite <- (om_others OM) in G2 by congruence.
    eexists. split; [exact G2|].
    destruct (key_eq_dec a k) as [<-|Da]; repeat split; congruence.
Qed.

(** C10 (amended).  The conflict resolver changes no room but the one being
    placed.  When [connect_rooms] returns, every room except the to-room has
    the coordinates it had (so the from-room keeps its coordinates when the
    two ids differ), every room has the width and height it had, and every
    room other than the two endpoints is unchanged in all fields. *)
Theorem connect_rooms_frame M a d b M' :
  WorldMap.connect_rooms M a d b = Ok M' ->
  (forall K k, k <> b ->
     WorldMap.get_room (WorldMap._resolve_spatial_conflicts K b) k =
     WorldMap.get_room K k) /\
  (forall k r, k <> b -> WorldMap.get_room M k = Some r ->
     exists r', WorldMap.get_room M' k = Some r' /\
                Room.x r' = Room.x r /\ Room.y r' = Room.y r) /\
  (a <> b -> forall r, WorldMap.get_room M a = Some r ->
     exists r', WorldMap.get_room M' a = Some r' /\
                Room.x r' = Room.x r /\ Room.y r' = Room.y r /\
                Room.width r' = Room.width r /\ Room.height r' = Room.height r) /\
  (forall k r, WorldMap.get_room M k = Some r ->
     exists r', WorldMap.get_room M' k = Some r' /\
                Room.width r' = Room.width r /\ Room.height r' = Room.height r) /\
  (forall k r, k <> a -> k <> b -> WorldMap.get_room M k = Some r ->
     WorldMap.get_room M' k = Some r).
Proof.
  intros H. unfold WorldMap.get_room. split; [|split; [|split; [|split]]].
  - intros K k D. unfold WorldMap._resolve_spatial_conflicts.
    now apply (om_others (resolve_loop_only_moves WorldMap.max_iterations K b)).
  - intros k r D G.
    destruct (connect_rooms_room _ _ _ _ k H G) as (r' & G' & _ & _ & _ & P & _).
    exists r'. split; [exact G'|]. apply P. now left.
  - intros D r G.
    destruct (connect_rooms_room _ _ _ _ a H G) as (r' & G' & W & Hh & _ & P & _).
    exists r'. split; [exact G'|].
    destruct P as [Px Py]; [now left|]. repeat split; assumption.
  - intros k r G.
    destruct (connect_rooms_room _ _ _ _ k H G) as (r' & G' & W & Hh & _).
    exists r'. repeat split; assumption.
  - intros k r Da Db G.
    destruct (connect_rooms_room _ _ _ _ k H G) as (r' & G' & _ & _ & _ & _ & E).
    now rewrite G', (E Da Db).
Qed.
End Mutators.

(** ** Call sequences and the starting room *)

Section Sequences.
Context {N : Num}.
Implicit Types (M : WorldMap.t N) (r : Room.t N) (k : string).

Lemma run_from_preserves (P : WorldMap.t N -> Prop) :
  (forall M c, P M -> P (after_call M c)) ->
  forall calls M, P M -> P (run_from M calls).
Proof.
  intros Step calls. induction calls as [|c calls IH]; intros M HM; simpl.
  - exact HM.
  - apply IH. now apply Step.
Qed.

Lemma anchors_kept_refl M : anchors_kept M M.
Proof. split; auto. intros k r G. exists r. auto. Qed.

Lemma anchors_kept_back M M' k r' :
  anchors_kept M M' ->
  PyDict.get (WorldMap.rooms M') k = Some r' ->
  exists r, PyDict.get (WorldMap.rooms M) k = Some r /\
    Room.is_starting_room r' = Room.is_starting_room r /\
    (Room.is_starting_room r = true ->
     Room.x r' = Room.x r /\ Room.y r' = Room.y r).
Proof.
  intros [_ Hk Hr] G'.
  destruct (PyDict.get (WorldMap.rooms M) k) as [r|] eqn:G.
  - destruct (Hr _ _ G) as (r'' & G'' & F). exists r.
    split; [reflexivity|]. congruence.
  - apply get_none_keys in G. rewrite <- Hk in G.
    apply get_some_keys in G'. contradiction.
Qed.

Lemma connect_rooms_anchors_kept M a d b M' :
  WorldMap.connect_rooms M a d b = Ok M' -> anchors_kept M M'.
Proof.
  intros H.
  destruct (connect_rooms_inv _ _ _ _ H) as (rd & _ & _ & _ & _ & _ & _ & OM & _).
  split.
  - rewrite (om_start OM). unfold with_both_exits.
    now rewrite !start_update_room.
  - rewrite (om_keys OM). unfold with_both_exits.
    now rewrite !keys_update_room.
  - intros k r G.
    destruct (connect_rooms_room _ _ _ _ k H G) as (r' & G' & _ & _ & F & P & _).
    exists r'. split; [exact G'|]. split; [exact F|].
    intros Fr. apply P. now right.
Qed.

Lemma discover_exit_anchors_kept M room_id d M' :
  WorldMap.discover_exit M room_id d = Ok M' -> anchors_kept M M'.
Proof.
  rewrite discover_exit_eq. intros [= <-]. split.
  - apply start_update_room.
  - apply keys_update_room.
  - intros k r G. rewrite get_update_room.
    destruct (key_eq_dec room_id k) as [<-|D].
    + rewrite G. simpl. eexists. split; [reflexivity|]. now split.
    + exists r. now split.
Qed.

Lemma flagged_at_origin_kept M M' :
  anchors_kept M M' -> flagged_at_origin M -> flagged_at_origin M'.
Proof.
  intros AK Inv k r' G' F'.
  destruct (anchors_kept_back _ AK G') as (r & G & F & P).
  rewrite F in F'. destruct (P F') as [-> ->]. exact (Inv k r G F').
Qed.

Lemma starting_room_named_kept M M' :
  anchors_kept M M' -> starting_room_named M -> starting_room_named M'.
Proof.
  intros AK (k & r & S & G & U).
  destruct (ak_rooms AK _ G) as (r' & G' & F & _).
  exists k, r'. split; [now rewrite (ak_start AK)|]. split; [exact G'|].
  intros k2 r2' G2' F2'.
  destruct (anchors_kept_back _ AK G2') as (r2 & G2 & F2 & _).
  rewrite F. apply (U k2 r2 G2). congruence.
Qed.

Lemma rooms_empty_kept M M' :
  anchors_kept M M' -> WorldMap.rooms M = [] -> WorldMap.rooms M' = [].
Proof.
  intros AK E. pose proof (ak_keys AK) as Hk. rewrite E in Hk.
  unfold PyDict.keys in Hk. simpl in Hk. now apply map_eq_nil in Hk.
Qed.

Lemma after_call_cases M c :
  anchors_kept M (after_call M c) \/
  exists room_id name description w h flag,
    PyDict.get (WorldMap.rooms M) room_id = None /\
    after_call M c =
      WorldMap.mk
        (PyDict.set (WorldMap.rooms M) room_id
           (Room.mk room_id name description w h zero zero PyDict.empty flag
              (WorldMap.discovery_count M + 1)%Z))
        (WorldMap.discovery_count M + 1)%Z
        (if flag || Nat.eqb (PyDict.len (WorldMap.rooms M)) 0
         then Some room_id else WorldMap.starting_room_id M).
Proof.
  unfold after_call. destruct c as [room_id name description w h flag|a d b|room_id d];
    simpl.
  - destruct (add_room_inv M room_id name description w h flag)
      as (M' & r & E & [[G HM]|(G & Hr & HM)]); rewrite E; simpl.
    + left. subst M'. apply anchors_kept_refl.
    + right. exists room_id, name, description, w, h, flag.
      split; [exact G|]. now rewrite HM, Hr.
  - left. destruct (WorldMap.connect_rooms M a d b) as [M'|e] eqn:E.
    + now apply connect_rooms_anchors_kept with (1 := E).
    + apply anchors_kept_refl.
  - left. destruct (WorldMap.discover_exit M room_id d) as [M'|e] eqn:E.
    + now apply discover_exit_anchors_kept with (1 := E).
    + apply anchors_kept_refl.
Qed.

Lemma flagged_at_origin_step M c :
  flagged_at_origin M -> flagged_at_origin (after_call M c).
Proof.
  intros Inv. destruct (after_call_cases M c)
    as [AK|(room_id & name & description & w & h & flag & G & ->)].
  - now apply flagged_at_origin_kept with (1 := AK).
  - intros k r. unfold WorldMap.get_room. simpl. rewrite get_set.
    destruct (key_eq_dec room_id k) as [<-|D].
    + intros [= <-] _. now split.
    + apply Inv.
Qed.

Lemma starting_room_named_step M c :
  WorldMap.rooms M = [] \/ starting_room_named M ->
  WorldMap.rooms (after_call M c) = [] \/ starting_room_named (after_call M c).
Proof.
  intros Inv. destruct (after_call_cases M c)
    as [AK|(room_id & name & description & w & h & flag & G & ->)].
  - destruct Inv as [E|S].
    + left. now apply rooms_empty_kept with (1 := AK).
    + right. now apply starting_room_named_kept with (1 := AK).
  - right. unfold starting_room_named, WorldMap.get_room. simpl.
    destruct flag; simpl.
    + do 2 eexists. split; [reflexivity|]. split; [apply get_set_same|].
      reflexivity.
    + destruct Inv as [E|(k0 & r0 & S & G0 & U)].
      * do 2 eexists. split; [now rewrite E|]. split; [apply get_set_same|].
        intros k' r'. rewrite get_set.
        destruct (key_eq_dec room_id k').
        -- intros [= <-]. simpl. discriminate.
        -- rewrite E. simpl. discriminate.
      * unfold WorldMap.get_room in *.
        assert (L : Nat.eqb (PyDict.len (WorldMap.rooms M)) 0 = false)
          by (destruct (WorldMap.rooms M); [discriminate G0 | reflexivity]).
        rewrite L.
        exists k0, r0. split; [exact S|].
        assert (D : room_id <> k0) by congruence.
        split; [now rewrite get_set_other|].
        intros k' r'. rewrite get_set.
        destruct (key_eq_dec room_id k') as [<-|D'].
        -- intros [= <-]. simpl. discriminate.
        -- apply U.
Qed.

Lemma valid_update_room M k (f : Room.t N -> Room.t N) :
  (forall r, PyDict.wf (Room.exits r) -> PyDict.wf (Room.exits (f r))) ->
  valid M -> valid (WorldMap.update_room M k f).
Proof.
  intros Hf [W We]. split.
  - unfold PyDict.wf. now rewrite keys_update_room.
  - unfold WorldMap.get_room in *. intros k' r'. rewrite get_update_room.
    destruct (key_eq_dec k k') as [<-|D]; [|apply We].
    destruct (PyDict.get (WorldMap.rooms M) k) as [r|] eqn:G; [|discriminate].
    intros [= <-]. apply Hf. now apply (We k).
Qed.

Lemma valid_only_moves M M' k :
  only_moves k M M' -> valid M -> valid M'.
Proof.
  intros OM [W We]. split.
  - unfold PyDict.wf. now rewrite (om_keys OM).
  - unfold WorldMap.get_room in *. intros k' r' G'.
    destruct (key_eq_dec k' k) as [->|D].
    + destruct (PyDict.get (WorldMap.rooms M) k) as [r|] eqn:G.
      * destruct (om_moved OM G) as (r'' & G'' & R).
        rewrite G'' in G'. injection G' as <-.
        rewrite (repositioned_exits R). now apply (We k).
      * apply get_none_keys in G. rewrite <- (om_keys OM) in G.
        apply get_some_keys in G'. contradiction.
    + rewrite (om_others OM) in G' by exact D. now apply (We k').
Qed.

Lemma add_exit_wf r d target :
  PyDict.wf (Room.exits r) -> PyDict.wf (Room.exits (Room.add_exit r d target)).
Proof. unfold Room.add_exit. simpl. apply wf_set. Qed.

Lemma valid_step M c : valid M -> valid (after_call M c).
Proof.
  intros V. unfold after_call.
  destruct c as [room_id name description w h flag|a d b|room_id d]; simpl.
  - destruct (add_room_inv M room_id name description w h flag)
      as (M' & r & E & [[G HM]|(G & Hr & HM)]); rewrite E; simpl.
    + now subst M'.
    + destruct V as [W We]. rewrite HM. split; simpl.
      * now apply wf_set.
      * unfold WorldMap.get_room in *. simpl. intros k' r'. rewrite get_set.
        destruct (key_eq_dec room_id k'); [|apply We].
        intros [= <-]. rewrite Hr. simpl. constructor.
  - destruct (WorldMap.connect_rooms M a d b) as [M'|e] eqn:E; [|exact V].
    destruct (connect_rooms_inv _ _ _ _ E) as (rd & _ & _ & _ & _ & _ & _ & OM & _).
    apply (valid_only_moves OM). unfold with_both_exits.
    do 2 (apply valid_update_room; [intros r; apply add_exit_wf|]). exact V.
  - rewrite discover_exit_eq.
    apply valid_update_room; [intros r; apply add_exit_wf | exact V].
Qed.

(** Every store the three mutators build from the empty store is valid. *)
Lemma run_valid calls : valid (run calls).
Proof.
  unfold run. apply run_from_preserves.
  - intros M c. apply valid_step.
  - split; [constructor|]. intros k r. discriminate.
Qed.

(** What the placement test of [connect_rooms] does protect.  A room
    carrying the starting flag is created at the origin and stays there:
    [add_room] with the flag puts the new room at [(0, 0)]; the
    placement test of [connect_rooms] fails on a flagged room, so a call
    whose to-room is flagged returns the store with the two exits recorded
    and neither placement nor the resolver run; [connect_rooms] leaves the
    flag and the coordinates of every flagged room as they were; and after
    any sequence of calls from the empty store every flagged room is at
    [(0, 0)]. *)
Lemma flagged_room_never_moves :
  (forall M room_id name description w h,
     WorldMap.get_room M room_id = None ->
     exists M' r,
       WorldMap.add_room M room_id name description w h true = Ok (M', r) /\
       WorldMap.get_room M' room_id = Some r /\
       Room.is_starting_room r = true /\
       Room.x r = zero /\ Room.y r = zero) /\
  (forall r, Room.is_starting_room r = true -> WorldMap.unplaced r = false) /\
  (forall M a d b M' rb,
     WorldMap.connect_rooms M a d b = Ok M' ->
     WorldMap.get_room M b = Some rb -> Room.is_starting_room rb = true ->
     exists rd, WorldMap._get_reverse_direction d = Some rd /\
                M' = with_both_exits M a d rd b) /\
  (forall M a d b M' k r,
     WorldMap.connect_rooms M a d b = Ok M' ->
     WorldMap.get_room M k = Some r -> Room.is_starting_room r = true ->
     exists r', WorldMap.get_room M' k = Some r' /\
                Room.is_starting_room r' = true /\
                Room.x r' = Room.x r /\ Room.y r' = Room.y r) /\
  (forall calls, flagged_at_origin (run calls)).
Proof.
  split; [|split; [|split; [|split]]].
  - intros M room_id name description w h G.
    destruct (add_room_inv M room_id name description w h true)
      as (M' & r & E & [[G' _]|(_ & Hr & HM)]).
    + unfold WorldMap.get_room in G. congruence.
    + exists M', r. split; [exact E|]. unfold WorldMap.get_room.
      rewrite HM, Hr. simpl. split; [apply get_set_same|]. now repeat split.
  - intros r F. unfold WorldMap.unplaced. rewrite F. simpl.
    now rewrite andb_false_r.
  - unfold WorldMap.get_room. intros M a d b M' rb H G F.
    destruct (connect_rooms_inv _ _ _ _ H)
      as (rd & _ & _ & Hrd & _ & _ & _ & _ & Stay).
    exists rd. split; [exact Hrd|].
    pose proof (get_with_both_exits M a d rd b b) as G2.
    rewrite G in G2. simpl in G2.
    apply (Stay _ G2). unfold WorldMap.unplaced.
    replace (Room.is_starting_room _) with true
      by (destruct (key_eq_dec b b), (key_eq_dec a b); simpl; congruence).
    simpl. now rewrite andb_false_r.
  - unfold WorldMap.get_room. intros M a d b M' k r H G F.
    destruct (connect_rooms_room _ _ _ _ k H G) as (r' & G' & _ & _ & F' & P & _).
    exists r'. split; [exact G'|]. split; [congruence|]. apply P. now right.
  - intros calls. unfold run. apply run_from_preserves.
    + intros M c. apply flagged_at_origin_step.
    + intros k r. unfold WorldMap.get_room. simpl. discriminate.
Qed.

(** C4 (amended).  After any sequence of calls from the empty store, once
    the store is non-empty [starting_room_id] names a room of the store, and
    that room carries the starting flag whenever some room of the store
    does; hence, when exactly one room carries the flag, [starting_room_id]
    names that room. *)
Theorem starting_room_id_names_a_room calls :
  WorldMap.rooms (run calls) <> [] ->
  starting_room_named (run calls) /\
  (forall k r,
     WorldMap.get_room (run calls) k = Some r ->
     Room.is_starting_room r = true ->
     (forall k' r', WorldMap.get_room (run calls) k' = Some r' ->
        Room.is_starting_room r' = true -> k' = k) ->
     WorldMap.starting_room_id (run calls) = Some k).
Proof.
  intros NE.
  assert (S : starting_room_named (run calls)).
  { assert (Inv : WorldMap.rooms (run calls) = [] \/
                  starting_room_named (run calls)).
    { unfold run.
      apply (run_from_preserves
               (fun M => WorldMap.rooms M = [] \/ starting_room_named M)).
      - intros M c. apply starting_room_named_step.
      - now left. }
    destruct Inv as [E|S]; [contradiction | exact S]. }
  split; [exact S|].
  intros k r G F Uniq. destruct S as (k0 & r0 & S0 & G0 & U).
  rewrite S0. f_equal. apply (Uniq k0 r0 G0). exact (U k r G F).
Qed.
End Sequences.

(** ** Conflict resolver *)

Section Resolver.
Context {N : Num}.
Implicit Types (M : WorldMap.t N) (r : Room.t N) (k : string).

Lemma rooms_overlap_spec p q : WorldMap._rooms_overlap p q = spec_overlap p q.
Proof.
  unfold WorldMap._rooms_overlap, spec_overlap,
    left_edge, right_edge, bottom_edge, top_edge. cbv zeta.
  destruct (nleb _ _), (nleb _ _), (nleb _ _), (nleb _ _); reflexivity.
Qed.

Lemma move_spec placed blocking :
  WorldMap._move_room_away_from_conflict placed blocking =
  Room.with_position placed
    (fst (relocation placed blocking))
    (snd (relocation placed blocking)).
Proof.
  unfold WorldMap._move_room_away_from_conflict, relocation,
    spec_unit_vector, margin_separation, buffer_margin. cbv zeta.
  now destruct (neqb _ _).
Qed.

Lemma find_first {A : Type} (f : A -> bool) (l : list A) (b : A) :
  find f l = Some b ->
  exists scanned rest,
    l = scanned ++ b :: rest /\ f b = true /\
    forall a, In a scanned -> f a = false.
Proof.
  induction l as [|a l IH]; simpl; [discriminate|].
  destruct (f a) eqn:Fa.
  - intros [= <-]. exists [], l. split; [reflexivity|]. split; [exact Fa|].
    intros a' [].
  - intros H. destruct (IH H) as (scanned & rest & -> & Fb & Hs).
    exists (a :: scanned), rest. split; [reflexivity|]. split; [exact Fb|].
    intros a' [<-|I]; [exact Fa | now apply Hs].
Qed.

Lemma no_conflict_spec placed other :
  negb (String.eqb (Room.id other) (Room.id placed))
  && WorldMap._rooms_overlap placed other = false ->
  other_room placed other = true -> spec_overlap placed other = false.
Proof.
  unfold other_room. rewrite rooms_overlap_spec. intros H O.
  rewrite O in H. exact H.
Qed.

Lemma resolve_loop_spec k passes :
  forall M placed,
    WorldMap.get_room M k = Some placed ->
    spec_resolves passes M k (WorldMap.resolve_loop passes M k).
Proof.
  unfold WorldMap.get_room.
  induction passes as [|passes IH]; intros M placed G; simpl.
  - apply sr_bound.
  - rewrite G.
    destruct (WorldMap.first_conflict (PyDict.values (WorldMap.rooms M)) placed)
      as [blocking|] eqn:F; unfold WorldMap.first_conflict in F.
    + destruct (find_first _ _ F) as (scanned & rest & V & Fb & Hs).
      apply andb_true_iff in Fb. destruct Fb as [Ob Vb].
      apply sr_relocate with (placed := placed) (scanned := scanned)
                             (blocking := blocking) (rest := rest).
      * exact G.
      * exact V.
      * intros other I. apply no_conflict_spec. now apply Hs.
      * exact Ob.
      * now rewrite <- rooms_overlap_spec.
      * replace (place M k (relocation placed blocking))
          with (WorldMap.update_room M k
                  (fun r => WorldMap._move_room_away_from_conflict r blocking)).
        -- eapply IH. rewrite get_update_room, G.
           destruct (key_eq_dec k k); [reflexivity | congruence].
        -- unfold place, WorldMap.update_room. rewrite G.
           now rewrite move_spec.
    + apply sr_clear with (placed := placed); [exact G|].
      intros other I. apply no_conflict_spec.
      exact (find_none _ _ F other I).
Qed.

(** C5 (amended).  The resolver run on the room stored under [k] is a run
    of the described procedure with a budget of ten passes: each pass that
    finds an overlap acts on the first overlapping room in iteration order
    and relocates the placed room to the blocking centre plus the unit
    vector (the +x unit vector when the distance between the centres is
    zero) times [max ((w1 + w2) / 2 + 1.0) ((h1 + h2) / 2 + 1.0)], every
    operation being made in the arithmetic of the program; the run ends at
    the first pass that finds no overlap, or when the ten passes are
    spent. *)
Theorem resolve_spatial_conflicts_spec M k placed :
  WorldMap.get_room M k = Some placed ->
  spec_resolves 10 M k (WorldMap._resolve_spatial_conflicts M k).
Proof.
  intros G. unfold WorldMap._resolve_spatial_conflicts, WorldMap.max_iterations.
  now apply resolve_loop_spec with (placed := placed).
Qed.
End Resolver.

(** ** Persistence codec *)

Section Codec.
Context {N : Num}.
Implicit Types (M : WorldMap.t N) (r : Room.t N) (k : string).

Lemma for_each_map_ok {A B S : Type} (body : S -> B -> result S)
    (f : A -> B) (g : S -> A -> S) :
  (forall s a, body s (f a) = Ok (g s a)) ->
  forall l s, for_each body (map f l) s = Ok (fold_left g l s).
Proof.
  intros H l. induction l as [|a l IH]; intros s; simpl.
  - reflexivity.
  - rewrite H. simpl. apply IH.
Qed.

Lemma Direction_of_value d : Direction_of (value d) = Ok d.
Proof. now destruct d. Qed.

Lemma value_injective d1 d2 : value d1 = value d2 -> d1 = d2.
Proof.
  intros E. assert (H : Ok d1 = Ok d2)
    by (rewrite <- !Direction_of_value; now rewrite E).
  now injection H.
Qed.

Lemma NoDup_map_value (l : list Direction) : NoDup l -> NoDup (map value l).
Proof.
  induction 1 as [|d l NI ND IH]; simpl; constructor; [|exact IH].
  intros I. apply in_map_iff in I. destruct I as (d' & E & I).
  apply value_injective in E. now subst.
Qed.

Lemma restore_exit_encoded (es : PyDict.t Direction RoomExit.t)
    (kv : Direction * RoomExit.t) :
  WorldMap.restore_exit es (value (fst kv), WorldMap.exit_to_dict (snd kv)) =
  Ok (PyDict.set es (fst kv) (snd kv)).
Proof.
  destruct kv as [d [ed tgt disc]]. unfold WorldMap.restore_exit. simpl.
  rewrite !Direction_of_value. reflexivity.
Qed.

(** The inner loop of the second pass rebuilds an exit table from its
    encoding. *)
Lemma restore_exits_of_room (e : PyDict.t Direction RoomExit.t) :
  PyDict.wf e ->
  for_each WorldMap.restore_exit
    (PyDict.items
       (PyDict.of_items
          (map (fun kv => (value (fst kv), WorldMap.exit_to_dict (snd kv)))
               (PyDict.items e))))
    PyDict.empty = Ok e.
Proof.
  intros W. unfold PyDict.items. rewrite of_items_wf.
  - rewrite for_each_map_ok
      with (g := fun d kv => PyDict.set d (fst kv) (snd kv))
      by apply restore_exit_encoded.
    f_equal. now apply (fold_set_append e []).
  - unfold PyDict.wf, PyDict.keys. rewrite map_map. simpl.
    rewrite <- map_map with (f := fst) (g := value).
    now apply NoDup_map_value.
Qed.

Lemma create_room_encoded (rs : PyDict.t string (Room.t N))
    (kv : string * Room.t N) :
  WorldMap.create_room rs (fst kv, WorldMap.room_to_dict (snd kv)) =
  Ok (PyDict.set rs (fst kv) (without_exits (snd kv))).
Proof. destruct kv as [k r]. reflexivity. Qed.

Lemma with_exits_restored r : Room.with_exits (without_exits r) (Room.exits r) = r.
Proof. now destruct r. Qed.

Lemma keys_map_snd {A B : Type} (f : A -> B) (l : list (string * A)) :
  PyDict.keys (map (fun kv => (fst kv, f (snd kv))) l) = PyDict.keys l.
Proof. unfold PyDict.keys. rewrite map_map. reflexivity. Qed.

Lemma fold_set_map {A B : Type} (f : A -> B) (l : list (string * A))
    (acc : PyDict.t string B) :
  fold_left (fun d kv => PyDict.set d (fst kv) (f (snd kv))) l acc =
  fold_left (fun d kv => PyDict.set d (fst kv) (snd kv))
    (map (fun kv => (fst kv, f (snd kv))) l) acc.
Proof.
  revert acc. induction l as [|kv l IH]; intros acc; simpl; [reflexivity|].
  apply IH.
Qed.

(** The second pass, with the rooms [done] already restored and the rooms
    [todo] still as the first pass left them. *)
Lemma second_pass_restores (todo done : PyDict.t string (Room.t N)) :
  PyDict.wf (done ++ todo) ->
  (forall k r, In (k, r) todo -> PyDict.wf (Room.exits r)) ->
  for_each WorldMap.restore_exits
    (map (fun kv => (fst kv, WorldMap.room_to_dict (snd kv))) todo)
    (done ++ map (fun kv => (fst kv, without_exits (snd kv))) todo)
  = Ok (done ++ todo).
Proof.
  revert done. induction todo as [|[k r] todo IH]; intros done W We; simpl.
  - reflexivity.
  - assert (NI : ~ In k (PyDict.keys done)).
    { unfold PyDict.wf, PyDict.keys in W. rewrite map_app in W. simpl in W.
      apply NoDup_remove_2 in W. intros I. apply W. apply in_or_app. now left. }
    rewrite get_skip_prefix by exact NI. simpl.
    destruct (key_eq_dec k k) as [_|C]; [simpl|congruence].
    rewrite restore_exits_of_room by (apply (We k r); now left). simpl.
    rewrite set_skip_prefix by exact NI. rewrite set_head_same.
    rewrite with_exits_restored.
    change (done ++ (k, r) :: ?t) with (done ++ [(k, r)] ++ t).
    rewrite !app_assoc. apply IH.
    + now rewrite <- app_assoc.
    + intros k' r' I. apply (We k' r'). now right.
Qed.

(** C1.  Decoding the encoding of a valid store returns that store: the same
    [discovery_count] and [starting_room_id], the same rooms under the same
    keys in the same order, each with every field and every exit it had. *)
Theorem from_dict_to_dict M :
  valid M -> WorldMap.from_dict (WorldMap.to_dict M) = Ok M.
Proof.
  intros [W We]. unfold WorldMap.from_dict, WorldMap.to_dict. simpl.
  unfold PyDict.items.
  rewrite of_items_wf by (unfold PyDict.wf; now rewrite keys_map_snd).
  rewrite for_each_map_ok
    with (g := fun d kv => PyDict.set d (fst kv) (without_exits (snd kv)))
    by apply create_room_encoded.
  rewrite fold_set_map, fold_set_append
    by (simpl; now rewrite keys_map_snd).
  assert (Wi : forall k r, In (k, r) (WorldMap.rooms M) ->
                          PyDict.wf (Room.exits r))
    by (intros k r I; apply (We k); now apply in_get_wf).
  pose proof (second_pass_restores (WorldMap.rooms M) [] W Wi) as P.
  simpl in *. rewrite P. simpl. now destruct M.
Qed.






Lemma mem_set (rs : PyDict.t string (Room.t N)) k k' r :
  PyDict.mem (PyDict.set rs k r) k' = true <->
  k = k' \/ PyDict.mem rs k' = true.
Proof.
  unfold PyDict.mem. rewrite get_set.
  destruct (key_eq_dec k k'); intuition congruence.
Qed.





End Codec.

(** ** Concrete runs *)


(** [discover_exit] on an id the store does not hold. *)
Lemma discover_exit_spec_witness :
  PyDict.mem (WorldMap.rooms one_room) "ghost" = false /\
  WorldMap.discover_exit one_room "ghost" EAST = Ok one_room.
Proof.
  split; [reflexivity|].
  apply (proj1 (discover_exit_spec one_room "ghost" EAST)). reflexivity.
Defined.

(** C7, as stated, fails: no exception is raised for an id the store does
    not hold. *)
Lemma discover_exit_unknown_room_returns :
  PyDict.mem (WorldMap.rooms empty_store) "ghost" = false /\
  WorldMap.discover_exit empty_store "ghost" EAST = Ok empty_store /\
  ~ (exists e, WorldMap.discover_exit empty_store "ghost" EAST = Raise e).
Proof.
  split; [reflexivity|]. split; [reflexivity|].
  intros [e H]. discriminate H.
Qed.

(** A room of width [0] added to the empty store. *)
Lemma add_room_accepts_any_extent_witness :
  WorldMap.get_room empty_store "a" = None /\
  exists M' r,
    WorldMap.add_room empty_store "a" "A" "d" 0%float 8%float false
      = Ok (M', r) /\
    WorldMap.get_room M' "a" = Some r /\
    (WorldMap.get_room empty_store "a" = None ->
     Room.width r = 0%float /\ Room.height r = 8%float /\
     WorldMap.rooms M' = WorldMap.rooms empty_store ++ [("a", r)]).
Proof.
  split; [reflexivity|].
  apply (add_room_accepts_any_extent empty_store "a" "A" "d"
           0%float 8%float false).
Defined.

(** C3, as stated, fails: a width of [0] and a height of [-1] are accepted
    and the room is added. *)
Lemma add_room_nonpositive_extent_added :
  (0 <=? 0)%float = true /\ (-1 <=? 0)%float = true /\
  exists M' r,
    WorldMap.add_room empty_store "a" "A" "d" 0%float (-1)%float false
      = Ok (M', r) /\
    PyDict.mem (WorldMap.rooms M') "a" = true /\
    Room.width r = 0%float /\ Room.height r = (-1)%float.
Proof.
  split; [reflexivity|]. split; [reflexivity|].
  do 2 eexists. split; [reflexivity|]. repeat split.
Qed.

(** Scenario B: the from-room ["a"] differs from the to-room ["b"]. *)
Lemma connect_rooms_frame_witness :
  "a" <> "b" /\
  exists M',
    WorldMap.connect_rooms two_rooms "a" NORTH "b" = Ok M' /\
    exists r', WorldMap.get_room M' "a" = Some r' /\
               Room.x r' = 0%float /\ Room.y r' = 0%float /\
               Room.width r' = 10%float /\ Room.height r' = 8%float.
Proof.
  split; [discriminate|].
  eexists. split; [reflexivity|].
  refine (proj1 (proj2 (proj2
    (@connect_rooms_frame float_num two_rooms "a" NORTH "b" _ eq_refl))) _ _ eq_refl).
  discriminate.
Defined.

(** C10, as stated, fails when a room is connected to itself: the from-room
    is then the to-room, and placement moves it. *)
Lemma connect_rooms_self_moves_from_room :
  PyDict.mem (WorldMap.rooms lone_unflagged) "a" = true /\
  option_map (fun r => (Room.x r, Room.y r))
    (WorldMap.get_room lone_unflagged "a") = Some (0%float, 0%float) /\
  exists M',
    WorldMap.connect_rooms lone_unflagged "a" NORTH "a" = Ok M' /\
    option_map (fun r => (Room.x r, Room.y r))
      (WorldMap.get_room M' "a") = Some (0%float, 2%float).
Proof.
  split; [reflexivity|]. split; [reflexivity|].
  eexists. split; reflexivity.
Qed.

(** The flagged room of scenario B is the to-room of a second connection. *)
Lemma flagged_room_never_moves_example :
  WorldMap.get_room two_rooms "a" =
    Some (Room.mk "a" "A" "d" 10%float 8%float 0%float 0%float [] true 1) /\
  exists r',
    option_map (fun M' => WorldMap.get_room M' "a")
      (match WorldMap.connect_rooms two_rooms "b" SOUTH "a" with
       | Ok M' => Some M' | Raise _ => None end) = Some (Some r') /\
    Room.is_starting_room r' = true /\
    Room.x r' = 0%float /\ Room.y r' = 0%float.
Proof.
  split; [reflexivity|].
  destruct (WorldMap.connect_rooms two_rooms "b" SOUTH "a") as [M'|e] eqn:E;
    [|discriminate E].
  destruct (proj1 (proj2 (proj2 (proj2 (@flagged_room_never_moves float_num))))
              two_rooms "b" SOUTH "a" M' "a" _ E eq_refl eq_refl)
    as (r' & G' & F' & X' & Y').
  exists r'. simpl. rewrite G'. now repeat split.
Defined.

(** C9.  The code moves the starting room.  [add_room] records the first
    room as [starting_room_id] and leaves it at the origin, flag or no flag;
    the placement test of [connect_rooms] looks at the flag only.  A first
    room added without the flag is therefore taken for unplaced when it is
    the to-room of a connection: here room ["a"], which [starting_room_id]
    names before and after the call, goes from [(0, 0)] to [(0, -7)]. *)
Theorem unflagged_starting_room_is_moved :
  WorldMap.starting_room_id unflagged_start = Some "a" /\
  option_map (fun r => (Room.is_starting_room r, Room.x r, Room.y r))
    (WorldMap.get_room unflagged_start "a") = Some (false, 0%float, 0%float) /\
  WorldMap.connect_rooms unflagged_start "b" SOUTH "a"
    = Ok unflagged_start_connected /\
  WorldMap.starting_room_id unflagged_start_connected = Some "a" /\
  option_map (fun r => (Room.is_starting_room r, Room.x r, Room.y r))
    (WorldMap.get_room unflagged_start_connected "a")
    = Some (false, 0%float, (-7)%float).
Proof. repeat split; vm_compute; reflexivity. Qed.

(** One call: the store is non-empty afterwards. *)
Lemma starting_room_id_names_a_room_witness :
  WorldMap.rooms one_room <> [] /\ starting_room_named one_room.
Proof.
  assert (NE : WorldMap.rooms one_room <> []) by discriminate.
  split; [exact NE|].
  exact (proj1 (@starting_room_id_names_a_room float_num
                  [AddRoom "a" "A" "d" 5%float 5%float true] NE)).
Defined.

(** C4, as stated, fails: a first room added without the flag leaves a
    non-empty store in which no room carries it, and two rooms added with
    the flag both carry it. *)
Lemma starting_flag_not_unique :
  WorldMap.rooms lone_unflagged <> [] /\
  length (flagged_rooms lone_unflagged) = 0 /\
  WorldMap.starting_room_id lone_unflagged = Some "a" /\
  WorldMap.rooms two_flagged <> [] /\
  length (flagged_rooms two_flagged) = 2.
Proof.
  split; [discriminate|]. split; [reflexivity|]. split; [reflexivity|].
  split; [discriminate|]. reflexivity.
Qed.

Lemma persisted_store_valid : valid persisted_store.
Proof. apply run_valid. Qed.

(** The store of the persistence test survives the round trip. *)
Lemma from_dict_to_dict_witness :
  valid persisted_store /\
  WorldMap.from_dict (WorldMap.to_dict persisted_store) = Ok persisted_store.
Proof.
  split; [exact persisted_store_valid|].
  exact (from_dict_to_dict persisted_store_valid).
Defined.

(** C6.  Scenario B: from the empty store, after the two [add_room] calls
    and [connect_rooms "a" NORTH "b"], room ["b"] is at [x = 0.0],
    [y = 7.0].  Placement puts it there ([(8 + 6) / 2 = 7] above the origin)
    and the resolver leaves it: the top edge of ["a"] and the bottom edge of
    ["b"] are both at [4.0], which is not an overlap. *)
Theorem scenario_B_position :
  exists ra rb,
    WorldMap.get_room scenario_B "a" = Some ra /\
    WorldMap.get_room scenario_B "b" = Some rb /\
    Room.x rb = 0%float /\ Room.y rb = 7%float /\
    (Room.y ra + Room.height ra / 2)%float = 4%float /\
    (Room.y rb - Room.height rb / 2)%float = 4%float /\
    WorldMap._rooms_overlap rb ra = false /\
    WorldMap._resolve_spatial_conflicts scenario_B "b" = scenario_B.
Proof.
  do 2 eexists. split; [reflexivity|]. split; [reflexivity|].
  repeat split; vm_compute; reflexivity.
Qed.



(** Room ["b"] placed on top of room ["a"], centres coinciding. *)
Lemma resolve_spatial_conflicts_spec_witness :
  WorldMap.get_room coincident_rooms_binary64 "b" =
    Some (Room.mk "b" "B" "d" 6%float 6%float 0%float 0%float [] false 2%Z) /\
  spec_resolves 10 coincident_rooms_binary64 "b"
    (WorldMap._resolve_spatial_conflicts coincident_rooms_binary64 "b").
Proof.
  split; [reflexivity|].
  exact (@resolve_spatial_conflicts_spec float_num
           coincident_rooms_binary64 "b" _ eq_refl).
Defined.

(** C5, as stated, fails on binary64.  Two rooms of the largest finite
    width: connecting them upwards puts ["b"] on ["a"], the resolver finds
    the overlap with ["a"] and relocates ["b"] to [(infinity, nan)], the
    sum of the two widths having overflowed; the sum of the two half-widths
    does not overflow, and the relocation as the claim words it is
    [(0x1.fffffffffffffp1023, 0)]. *)
Lemma relocation_overflows_on_binary64 :
  (exists a b,
     WorldMap.get_room huge_rooms "a" = Some a /\
     WorldMap.get_room huge_rooms "b" = Some b /\
     WorldMap.first_conflict (PyDict.values (WorldMap.rooms huge_rooms)) b
       = Some a /\
     spec_relocation b a = (0x1.fffffffffffffp1023%float, 0%float) /\
     Room.x (WorldMap._move_room_away_from_conflict b a) = infinity /\
     PrimFloat.eqb (Room.x (WorldMap._move_room_away_from_conflict b a))
       (fst (spec_relocation b a)) = false) /\
  exists M',
    WorldMap.connect_rooms huge_rooms "a" UP "b" = Ok M' /\
    option_map (fun r => (Room.x r, Room.y r)) (WorldMap.get_room M' "b")
      = Some (infinity, nan).
Proof.
  split.
  - do 2 eexists. split; [reflexivity|]. split; [reflexivity|].
    repeat split; vm_compute; reflexivity.
  - eexists. split; [reflexivity|]. vm_compute. reflexivity.
Qed.

(** On binary64 the coincident room is pushed along +x by
    [max ((6 + 10) / 2 + 1) ((6 + 8) / 2 + 1) = 9], in one pass, which is
    also what the described relocation gives. *)
Example resolver_moves_coincident_room :
  option_map (fun r => (Room.x r, Room.y r))
    (WorldMap.get_room
       (WorldMap._resolve_spatial_conflicts coincident_rooms_binary64 "b") "b")
  = Some (9%float, 0%float) /\
  WorldMap.resolve_loop 1 coincident_rooms_binary64 "b" =
  WorldMap._resolve_spatial_conflicts coincident_rooms_binary64 "b" /\
  option_map
    (fun placed =>
       option_map (spec_relocation placed)
         (WorldMap.get_room coincident_rooms_binary64 "a"))
    (WorldMap.get_room coincident_rooms_binary64 "b")
  = Some (Some (9%float, 0%float)).
Proof. repeat split; vm_compute; reflexivity. Qed.

(** Scenario D: no two of the three rooms overlap. *)
Example scenario_D_no_overlap :
  forallb
    (fun p => forallb
       (fun q => String.eqb (Room.id p) (Room.id q)
                 || negb (WorldMap._rooms_overlap p q))
       (PyDict.values (WorldMap.rooms scenario_D)))
    (PyDict.values (WorldMap.rooms scenario_D)) = true.
Proof. vm_compute. reflexivity. Qed.

(** * Further properties *)

(** ** More on dictionaries *)

Section MoreDictFacts.
Context {K V : Type} {EK : EqKey K}.
Implicit Types (d : PyDict.t K V) (k : K) (v : V).

Lemma get_in d k v : PyDict.get d k = Some v -> In (k, v) d.
Proof.
  induction d as [|[k' v'] d IH]; simpl; [discriminate|].
  destruct (key_eq_dec k' k) as [E|E].
  - intros [= ->]. subst. now left.
  - intros H. right. now apply IH.
Qed.

Lemma map_set_same {B : Type} (g : K * V -> B) d k v v0 :
  PyDict.get d k = Some v0 -> g (k, v) = g (k, v0) ->
  map g (PyDict.set d k v) = map g d.
Proof.
  intros G E. induction d as [|[k' v'] d IH]; simpl in *; [discriminate|].
  destruct (key_eq_dec k' k) as [->|D]; simpl.
  - injection G as ->. now rewrite E.
  - f_equal. now apply IH.
Qed.

Lemma set_set d k v v' : PyDict.set (PyDict.set d k v) k v' = PyDict.set d k v'.
Proof.
  induction d as [|[k0 v0] d IH]; simpl.
  - destruct (key_eq_dec k k); congruence.
  - destruct (key_eq_dec k0 k) as [E|E]; simpl;
      destruct (key_eq_dec k0 k); congruence.
Qed.

Lemma mem_keys (d d' : PyDict.t K V) k :
  PyDict.keys d' = PyDict.keys d -> PyDict.mem d' k = PyDict.mem d k.
Proof.
  intros E. unfold PyDict.mem.
  destruct (PyDict.get d k) as [v|] eqn:G, (PyDict.get d' k) as [v'|] eqn:G';
    try reflexivity.
  - apply get_some_keys in G. apply get_none_keys in G'. rewrite E in G'.
    contradiction.
  - apply get_some_keys in G'. apply get_none_keys in G. rewrite E in G'.
    contradiction.
Qed.

Lemma in_values_get d x :
  In x (PyDict.values d) -> PyDict.wf d ->
  exists k, PyDict.get d k = Some x.
Proof.
  unfold PyDict.values. intros I W. apply in_map_iff in I.
  destruct I as ([k v] & <- & I). exists k. now apply in_get_wf.
Qed.
End MoreDictFacts.

(** ** More on the mutators *)

Section MoreMutators.
Context {N : Num}.
Implicit Types (M : WorldMap.t N) (r : Room.t N) (k : string).

(** X1.  [_get_reverse_direction] is defined on every direction, never
    returns the direction itself, and reversing twice gives the direction
    back. *)
Theorem reverse_direction_involutive d :
  exists rd,
    WorldMap._get_reverse_direction d = Some rd /\ rd <> d /\
    WorldMap._get_reverse_direction rd = Some d.
Proof. destruct d; eexists; repeat split; discriminate. Qed.

Lemma add_room_existing M room_id name description w h flag r :
  PyDict.get (WorldMap.rooms M) room_id = Some r ->
  WorldMap.add_room M room_id name description w h flag = Ok (M, r).
Proof. intros G. unfold WorldMap.add_room. now rewrite G. Qed.

(** X2.  Creation is idempotent: once [add_room] has returned for an id, a
    further [add_room] with that id, whatever its other arguments, returns
    the same room and leaves the store, counter included, as it was. *)
Theorem add_room_twice M room_id name description w h flag M1 r1
    name' description' w' h' flag' :
  WorldMap.add_room M room_id name description w h flag = Ok (M1, r1) ->
  WorldMap.add_room M1 room_id name' description' w' h' flag' = Ok (M1, r1).
Proof.
  intros H. apply add_room_existing.
  destruct (add_room_inv M room_id name description w h flag)
    as (M' & r & E & [[G HM]|(G & Hr & HM)]);
    rewrite E in H; injection H as <- <-.
  - now subst M'.
  - rewrite HM. simpl. apply get_set_same.
Qed.

(** X3.  [connect_rooms] raises its [ValueError] exactly when one of the two
    ids is not in the store, and returns a store otherwise. *)
Theorem connect_rooms_raises_iff_unknown M a d b :
  (PyDict.mem (WorldMap.rooms M) a = false \/
   PyDict.mem (WorldMap.rooms M) b = false ->
   WorldMap.connect_rooms M a d b =
     Raise (ValueError "Both rooms must exist before connecting them")) /\
  (forall e, WorldMap.connect_rooms M a d b = Raise e ->
     PyDict.mem (WorldMap.rooms M) a = false \/
     PyDict.mem (WorldMap.rooms M) b = false) /\
  (PyDict.mem (WorldMap.rooms M) a = true ->
   PyDict.mem (WorldMap.rooms M) b = true ->
   exists M', WorldMap.connect_rooms M a d b = Ok M').
Proof.
  split; [|split].
  - unfold WorldMap.connect_rooms. intros [-> | ->]; simpl; [reflexivity|].
    now rewrite orb_true_r.
  - intros e H.
    destruct (PyDict.mem (WorldMap.rooms M) a) eqn:Ma; [|now left].
    destruct (PyDict.mem (WorldMap.rooms M) b) eqn:Mb; [|now right].
    destruct (connect_rooms_returns M a d b Ma Mb) as [M' HM'].
    congruence.
  - apply connect_rooms_returns.
Qed.

Lemma update_room_map {B : Type} (g : string * Room.t N -> B) M k
    (f : Room.t N -> Room.t N) :
  (forall r, g (k, f r) = g (k, r)) ->
  map g (WorldMap.rooms (WorldMap.update_room M k f)) = map g (WorldMap.rooms M).
Proof.
  intros Hf. unfold WorldMap.update_room.
  destruct (PyDict.get (WorldMap.rooms M) k) as [r|] eqn:G; [|reflexivity].
  simpl. now apply map_set_same with (v0 := r).
Qed.

Lemma blind_move {B : Type} (g : string * Room.t N -> B) k r b :
  blind_to_exits_and_position g ->
  g (k, WorldMap._move_room_away_from_conflict r b) = g (k, r).
Proof.
  intros [Hp _]. rewrite (repositioned_move r b). apply Hp.
Qed.

Lemma blind_add_exit {B : Type} (g : string * Room.t N -> B) k r d t :
  blind_to_exits_and_position g -> g (k, Room.add_exit r d t) = g (k, r).
Proof. intros [_ He]. unfold Room.add_exit. apply He. Qed.

Lemma resolve_loop_map {B : Type} (g : string * Room.t N -> B) n M k :
  blind_to_exits_and_position g ->
  map g (WorldMap.rooms (WorldMap.resolve_loop n M k)) = map g (WorldMap.rooms M).
Proof.
  intros Hg. revert M. induction n as [|n IH]; intros M; simpl; [reflexivity|].
  destruct (PyDict.get (WorldMap.rooms M) k) as [new_room|]; [|reflexivity].
  destruct (WorldMap.first_conflict _ new_room) as [b|]; [|reflexivity].
  rewrite IH. apply update_room_map. intros r. now apply blind_move.
Qed.

Lemma position_map {B : Type} (g : string * Room.t N -> B) M target reference d :
  blind_to_exits_and_position g ->
  map g (WorldMap.rooms
           (WorldMap._position_room_relative_to M target reference d)) =
  map g (WorldMap.rooms M).
Proof.
  intros Hg. unfold WorldMap._position_room_relative_to.
  destruct (PyDict.get (WorldMap.rooms M) target) as [tr|]; [|reflexivity].
  destruct (PyDict.get (WorldMap.rooms M) reference) as [rr|]; [|reflexivity].
  destruct (WorldMap.direction_vector _ _ d) as [ox oy].
  unfold WorldMap._resolve_spatial_conflicts. rewrite resolve_loop_map by exact Hg.
  apply update_room_map. intros r. apply (proj1 Hg).
Qed.

Lemma connect_rooms_map {B : Type} (g : string * Room.t N -> B) M a d b M' :
  blind_to_exits_and_position g ->
  WorldMap.connect_rooms M a d b = Ok M' ->
  map g (WorldMap.rooms M') = map g (WorldMap.rooms M).
Proof.
  intros Hg H.
  assert (E2 : forall rd,
             map g (WorldMap.rooms (with_both_exits M a d rd b)) =
             map g (WorldMap.rooms M)).
  { intros rd. unfold with_both_exits.
    rewrite !update_room_map; [reflexivity| |];
      intros r; now apply blind_add_exit. }
  unfold WorldMap.connect_rooms in H.
  destruct (negb _ || negb _); [discriminate|].
  destruct (reverse_direction_total d) as (rd & Hrd & _). rewrite Hrd in H.
  fold (with_both_exits M a d rd b) in H.
  destruct (PyDict.get _ b) as [to_room|].
  - destruct (WorldMap.unplaced to_room); injection H as <-.
    + rewrite position_map by exact Hg. apply E2.
    + apply E2.
  - injection H as <-. apply E2.
Qed.

Lemma room_identity_blind : blind_to_exits_and_position room_identity.
Proof. split; reflexivity. Qed.

(** X4.  [connect_rooms] and [discover_exit] neither add, remove nor reorder
    rooms and leave the counter and the starting room id alone; of a room
    they change at most exits and coordinates ([connect_rooms]) or exits
    only ([discover_exit]). *)
Theorem connecting_keeps_rooms_and_counters M :
  (forall a d b M',
     WorldMap.connect_rooms M a d b = Ok M' ->
     WorldMap.discovery_count M' = WorldMap.discovery_count M /\
     WorldMap.starting_room_id M' = WorldMap.starting_room_id M /\
     map room_identity (WorldMap.rooms M') =
     map room_identity (WorldMap.rooms M)) /\
  (forall room_id d M',
     WorldMap.discover_exit M room_id d = Ok M' ->
     WorldMap.discovery_count M' = WorldMap.discovery_count M /\
     WorldMap.starting_room_id M' = WorldMap.starting_room_id M /\
     map (fun entry => (room_identity entry, Room.x (snd entry), Room.y (snd entry)))
         (WorldMap.rooms M') =
     map (fun entry => (room_identity entry, Room.x (snd entry), Room.y (snd entry)))
         (WorldMap.rooms M)).
Proof.
  split.
  - intros a d b M' H.
    destruct (connect_rooms_inv _ _ _ _ H) as (rd & _ & _ & _ & _ & _ & _ & OM & _).
    split; [|split].
    + rewrite (om_count OM). unfold with_both_exits.
      now rewrite !count_update_room.
    + rewrite (om_start OM). unfold with_both_exits.
      now rewrite !start_update_room.
    + apply connect_rooms_map with (1 := room_identity_blind) (2 := H).
  - intros room_id d M'. rewrite discover_exit_eq. intros [= <-].
    split; [apply count_update_room|]. split; [apply start_update_room|].
    now apply update_room_map.
Qed.
End MoreMutators.

(** ** Invariants of the stores the mutators build *)

Section Invariants.
Context {N : Num}.
Implicit Types (M : WorldMap.t N) (r : Room.t N) (k : string).

(** A call either adds a new room at the end of the table, or leaves every
    projection that is blind to exits and coordinates, the counter and the
    starting room id as they were. *)
Lemma after_call_blind_cases M c :
  (WorldMap.discovery_count (after_call M c) = WorldMap.discovery_count M /\
   WorldMap.starting_room_id (after_call M c) = WorldMap.starting_room_id M /\
   forall (B : Type) (g : string * Room.t N -> B),
     blind_to_exits_and_position g ->
     map g (WorldMap.rooms (after_call M c)) = map g (WorldMap.rooms M)) \/
  exists room_id name description w h flag,
    PyDict.get (WorldMap.rooms M) room_id = None /\
    after_call M c =
      WorldMap.mk
        (WorldMap.rooms M ++
           [(room_id,
             Room.mk room_id name description w h zero zero PyDict.empty flag
               (WorldMap.discovery_count M + 1)%Z)])
        (WorldMap.discovery_count M + 1)%Z
        (if flag || Nat.eqb (PyDict.len (WorldMap.rooms M)) 0
         then Some room_id else WorldMap.starting_room_id M).
Proof.
  unfold after_call.
  destruct c as [room_id name description w h flag|a d b|room_id d]; simpl.
  - destruct (add_room_inv M room_id name description w h flag)
      as (M' & r & E & [[G HM]|(G & Hr & HM)]); rewrite E; simpl.
    + left. subst M'. auto.
    + right. exists room_id, name, description, w, h, flag.
      split; [exact G|]. rewrite HM, Hr. now rewrite set_absent by exact G.
  - left. destruct (WorldMap.connect_rooms M a d b) as [M'|e] eqn:E; [|auto].
    destruct (connect_rooms_inv _ _ _ _ E) as (rd & _ & _ & _ & _ & _ & _ & OM & _).
    split; [|split].
    + rewrite (om_count OM). unfold with_both_exits.
      now rewrite !count_update_room.
    + rewrite (om_start OM). unfold with_both_exits.
      now rewrite !start_update_room.
    + intros B g Hg. now apply connect_rooms_map with (2 := E).
  - left. rewrite discover_exit_eq.
    split; [apply count_update_room|]. split; [apply start_update_room|].
    intros B g Hg. apply update_room_map. intros r. now apply blind_add_exit.
Qed.

Lemma numbered_in_order_step M c :
  numbered_in_order M -> numbered_in_order (after_call M c).
Proof.
  unfold numbered_in_order, PyDict.len, PyDict.values. intros [Hc Ho].
  destruct (after_call_blind_cases M c)
    as [(Ec & _ & Eg)|(room_id & name & description & w & h & flag & G & ->)].
  - assert (El : length (WorldMap.rooms (after_call M c)) =
                 length (WorldMap.rooms M)).
    { rewrite <- (length_map fst), <- (length_map fst (WorldMap.rooms M)).
      f_equal. apply Eg. split; reflexivity. }
    rewrite Ec, El. split; [exact Hc|].
    rewrite map_map in *. rewrite <- Ho. apply Eg. split; reflexivity.
  - simpl. rewrite length_app. simpl. split; [lia|].
    rewrite !map_app, Ho. simpl.
    rewrite Nat.add_1_r. rewrite seq_S, map_app. simpl.
    do 3 f_equal. lia.
Qed.

(** X5.  After any sequence of calls from the empty store, [discovery_count]
    is the number of rooms and the rooms, in insertion order, carry the
    discovery orders 1, 2, 3, ...: the orders are distinct and increase
    with insertion. *)
Theorem discovery_orders_count_rooms calls :
  numbered_in_order (run calls).
Proof.
  unfold run. apply run_from_preserves.
  - intros M c. apply numbered_in_order_step.
  - split; reflexivity.
Qed.

Lemma keyed_by_id_step M c :
  Forall (fun entry => Room.id (snd entry) = fst entry) (WorldMap.rooms M) ->
  Forall (fun entry => Room.id (snd entry) = fst entry)
    (WorldMap.rooms (after_call M c)).
Proof.
  intros Inv.
  destruct (after_call_blind_cases M c)
    as [(_ & _ & Eg)|(room_id & name & description & w & h & flag & G & ->)].
  - assert (E : map (fun entry : string * Room.t N =>
                       (fst entry, Room.id (snd entry)))
                  (WorldMap.rooms (after_call M c)) =
                map (fun entry => (fst entry, Room.id (snd entry)))
                  (WorldMap.rooms M))
      by (apply Eg; split; reflexivity).
    assert (F : forall l : list (string * Room.t N),
               Forall (fun entry => Room.id (snd entry) = fst entry) l <->
               Forall (fun p : string * string => snd p = fst p)
                 (map (fun entry => (fst entry, Room.id (snd entry))) l))
      by (intros l; rewrite Forall_map; reflexivity).
    apply F. rewrite E. now apply F.
  - simpl. apply Forall_app. split; [exact Inv|].
    constructor; [reflexivity | constructor].
Qed.

(** X6.  After any sequence of calls from the empty store, the room stored
    under a key has that key as its [id]. *)
Theorem room_is_keyed_by_its_id calls k r :
  WorldMap.get_room (run calls) k = Some r -> Room.id r = k.
Proof.
  intros G.
  assert (Inv : Forall (fun entry => Room.id (snd entry) = fst entry)
                  (WorldMap.rooms (run calls))).
  { unfold run. apply (run_from_preserves
      (fun M => Forall (fun entry => Room.id (snd entry) = fst entry)
                  (WorldMap.rooms M))).
    - intros M c. apply keyed_by_id_step.
    - constructor. }
  rewrite Forall_forall in Inv. exact (Inv (k, r) (get_in _ _ G)).
Qed.

(** The exits of each room after [connect_rooms]. *)
Lemma connect_rooms_exits M a d b M' k r :
  WorldMap.connect_rooms M a d b = Ok M' ->
  PyDict.get (WorldMap.rooms M) k = Some r ->
  exists r' rd,
    WorldMap._get_reverse_direction d = Some rd /\
    PyDict.get (WorldMap.rooms M') k = Some r' /\
    Room.exits r' = Room.exits (with_new_exits a d rd b k r).
Proof.
  intros H G.
  destruct (connect_rooms_inv _ _ _ _ H) as (rd & _ & _ & Hrd & _ & _ & _ & OM & _).
  pose proof (get_with_both_exits M a d rd b k) as G2.
  rewrite G in G2. simpl in G2. fold (with_new_exits a d rd b k r) in G2.
  destruct (key_eq_dec k b) as [->|D].
  - destruct (om_moved OM G2) as (r' & G' & R').
    exists r', rd. split; [exact Hrd|]. split; [exact G'|].
    apply (repositioned_exits R').
  - rewrite <- (om_others OM) in G2 by exact D.
    exists (with_new_exits a d rd b k r), rd. now repeat split.
Qed.

Lemma connect_rooms_mem M a d b M' k :
  WorldMap.connect_rooms M a d b = Ok M' ->
  PyDict.mem (WorldMap.rooms M') k = PyDict.mem (WorldMap.rooms M) k.
Proof.
  intros H. apply mem_keys. unfold PyDict.keys.
  apply connect_rooms_map with (2 := H). split; reflexivity.
Qed.

Lemma connect_rooms_exits_back M a d b M' k r' :
  WorldMap.connect_rooms M a d b = Ok M' ->
  PyDict.get (WorldMap.rooms M') k = Some r' ->
  exists r rd,
    WorldMap._get_reverse_direction d = Some rd /\
    PyDict.get (WorldMap.rooms M) k = Some r /\
    Room.exits r' = Room.exits (with_new_exits a d rd b k r).
Proof.
  intros H G'.
  pose proof (connect_rooms_mem _ _ _ _ k H) as Em. unfold PyDict.mem in Em.
  rewrite G' in Em.
  destruct (PyDict.get (WorldMap.rooms M) k) as [r|] eqn:G; [|discriminate].
  destruct (connect_rooms_exits _ _ _ _ k H G) as (r'' & rd & Hrd & G'' & E).
  exists r, rd. split; [exact Hrd|]. split; [reflexivity|]. congruence.
Qed.

(** A lookup in the exits [connect_rooms] leaves in a room: one of the two
    exits just recorded, or the exit the slot held. *)
Lemma get_with_new_exits a d rd b k r d' :
  (b = k /\ rd = d' /\
   PyDict.get (Room.exits (with_new_exits a d rd b k r)) d' =
     Some (RoomExit.mk rd (Some a) true)) \/
  (a = k /\ d = d' /\ ~ (b = k /\ rd = d') /\
   PyDict.get (Room.exits (with_new_exits a d rd b k r)) d' =
     Some (RoomExit.mk d (Some b) true)) \/
  (~ (a = k /\ d = d') /\ ~ (b = k /\ rd = d') /\
   PyDict.get (Room.exits (with_new_exits a d rd b k r)) d' =
     PyDict.get (Room.exits r) d').
Proof.
  unfold with_new_exits.
  destruct (key_eq_dec b k) as [Eb|Db], (key_eq_dec a k) as [Ea|Da];
    try (destruct (key_eq_dec rd d') as [Er|Dr]);
    try (destruct (key_eq_dec d d') as [Ed|Dd]); subst;
    rewrite ?add_exit_get, ?add_exit_get_other by assumption;
    try (rewrite add_exit_get);
    tauto.
Qed.

Lemma exits_sound_step M c : exits_sound M -> exits_sound (after_call M c).
Proof.
  intros Inv. unfold after_call, exits_sound, WorldMap.get_room in *.
  destruct c as [room_id name description w h flag|a d b|room_id d]; simpl.
  - destruct (add_room_inv M room_id name description w h flag)
      as (M' & r & E & [[G HM]|(G & Hr & HM)]); rewrite E; simpl.
    + now subst M'.
    + rewrite HM. simpl. intros k r0 d0 e. rewrite get_set.
      destruct (key_eq_dec room_id k) as [<-|D].
      * intros [= <-]. rewrite Hr. simpl. discriminate.
      * intros G0 Ge. destruct (Inv k r0 d0 e G0 Ge) as (Hd & Hp & Ht).
        repeat split; try assumption.
        intros target T. apply mem_set. right. now apply Ht.
  - destruct (WorldMap.connect_rooms M a d b) as [M'|err] eqn:E; [|exact Inv].
    intros k r' d' e G' Ge.
    destruct (connect_rooms_exits_back _ _ _ _ k E G') as (r & rd & Hrd & G & Ex).
    destruct (connect_rooms_inv _ _ _ _ E) as (_ & ra & rb & _ & _ & Ga & Gb & _).
    rewrite Ex in Ge.
    assert (Ma : PyDict.mem (WorldMap.rooms M') a = true)
      by (rewrite (connect_rooms_mem _ _ _ _ a E); unfold PyDict.mem; now rewrite Ga).
    assert (Mb : PyDict.mem (WorldMap.rooms M') b = true)
      by (rewrite (connect_rooms_mem _ _ _ _ b E); unfold PyDict.mem; now rewrite Gb).
    destruct (get_with_new_exits a d rd b k r d')
      as [(_ & <- & Gn)|[(_ & <- & _ & Gn)|(_ & _ & Gn)]];
      rewrite Gn in Ge.
    + injection Ge as <-. simpl. repeat split. now intros target [= <-].
    + injection Ge as <-. simpl. repeat split. now intros target [= <-].
    + destruct (Inv k r d' e G Ge) as (Hd & Hp & Ht).
      repeat split; try assumption.
      intros target T. rewrite (connect_rooms_mem _ _ _ _ target E). now apply Ht.
  - rewrite discover_exit_eq. simpl. intros k r' d' e. rewrite get_update_room.
    assert (Em : forall t,
               PyDict.mem (WorldMap.rooms
                 (WorldMap.update_room M room_id
                    (fun r => Room.add_exit r d None))) t =
               PyDict.mem (WorldMap.rooms M) t)
      by (intros t; apply mem_keys, keys_update_room).
    destruct (key_eq_dec room_id k) as [<-|D].
    + destruct (PyDict.get (WorldMap.rooms M) room_id) as [r|] eqn:G;
        [|discriminate].
      intros [= <-]. destruct (key_eq_dec d d') as [<-|Dd].
      * rewrite add_exit_get. intros [= <-]. simpl. repeat split. discriminate.
      * rewrite add_exit_get_other by exact Dd. intros Ge.
        destruct (Inv room_id r d' e G Ge) as (Hd & Hp & Ht).
        repeat split; try assumption. intros target T. rewrite Em. now apply Ht.
    + intros G Ge. destruct (Inv k r' d' e G Ge) as (Hd & Hp & Ht).
      repeat split; try assumption. intros target T. rewrite Em. now apply Ht.
Qed.

Lemma run_exits_sound calls : exits_sound (run calls).
Proof.
  unfold run. apply run_from_preserves.
  - intros M c. apply exits_sound_step.
  - intros k r d e. unfold WorldMap.get_room. simpl. discriminate.
Qed.

(** X7.  After any sequence of calls from the empty store, every exit is
    stored in the slot of its own direction and is discovered exactly when
    it has a target. *)
Theorem exits_match_their_slot calls k r d e :
  WorldMap.get_room (run calls) k = Some r ->
  PyDict.get (Room.exits r) d = Some e ->
  RoomExit.direction e = d /\
  RoomExit.is_discovered e = present (RoomExit.target_room_id e).
Proof.
  intros G Ge. destruct (run_exits_sound calls k d G Ge) as (Hd & Hp & _).
  now split.
Qed.

(** X8.  After any sequence of calls from the empty store, no exit dangles:
    the target of an exit, when it has one, is the id of a room of the
    store. *)
Theorem exit_targets_are_rooms calls k r d e target :
  WorldMap.get_room (run calls) k = Some r ->
  PyDict.get (Room.exits r) d = Some e ->
  RoomExit.target_room_id e = Some target ->
  exists target_room, WorldMap.get_room (run calls) target = Some target_room.
Proof.
  intros G Ge T. destruct (run_exits_sound calls k d G Ge) as (_ & _ & Ht).
  apply mem_true_get. now apply Ht.
Qed.

(** X9.  [connect_rooms a d b] never removes an exit: outside the slot [d]
    of room [a] and the reverse slot of room [b], every room has the exits it
    had, and a slot that held an exit still holds one. *)
Theorem connect_rooms_keeps_other_exits M a d b M' k r :
  WorldMap.connect_rooms M a d b = Ok M' ->
  WorldMap.get_room M k = Some r ->
  exists r',
    WorldMap.get_room M' k = Some r' /\
    (forall d',
       ~ (k = a /\ d' = d) ->
       ~ (k = b /\ WorldMap._get_reverse_direction d = Some d') ->
       PyDict.get (Room.exits r') d' = PyDict.get (Room.exits r) d') /\
    (forall d', PyDict.get (Room.exits r) d' <> None ->
                PyDict.get (Room.exits r') d' <> None).
Proof.
  unfold WorldMap.get_room. intros H G.
  destruct (connect_rooms_exits _ _ _ _ k H G) as (r' & rd & Hrd & G' & Ex).
  exists r'. split; [exact G'|]. rewrite Ex. split.
  - intros d' Na Nb.
    destruct (get_with_new_exits a d rd b k r d')
      as [(<- & <- & _)|[(<- & <- & _)|(_ & _ & Gn)]].
    + exfalso. apply Nb. now split.
    + exfalso. apply Na. now split.
    + exact Gn.
  - intros d' Occ.
    destruct (get_with_new_exits a d rd b k r d')
      as [(_ & _ & Gn)|[(_ & _ & _ & Gn)|(_ & _ & Gn)]];
      rewrite Gn; [discriminate | discriminate | exact Occ].
Qed.

(** X10.  [discover_exit] is idempotent: repeating the call on the store it
    returned returns that store again. *)
Theorem discover_exit_twice M room_id d M1 :
  WorldMap.discover_exit M room_id d = Ok M1 ->
  WorldMap.discover_exit M1 room_id d = Ok M1.
Proof.
  rewrite !discover_exit_eq. intros [= <-]. f_equal.
  unfold WorldMap.update_room at 1. rewrite get_update_room.
  destruct (key_eq_dec room_id room_id) as [_|C]; [|congruence].
  destruct (PyDict.get (WorldMap.rooms M) room_id) as [r|] eqn:G; simpl.
  - unfold WorldMap.update_room. rewrite G. unfold WorldMap.with_rooms. simpl.
    f_equal. rewrite set_set. f_equal.
    unfold Room.add_exit, Room.with_exits. simpl. f_equal. apply set_set.
  - unfold WorldMap.update_room. now rewrite G.
Qed.
End Invariants.

(** ** Geometry: overlap, resolver and bounds *)

Section Geometry.
Context {N : Num}.
Implicit Types (M : WorldMap.t N) (r : Room.t N) (k : string).

(** X11.  The overlap test is symmetric in its two rooms. *)
Theorem rooms_overlap_symmetric (p q : Room.t N) :
  WorldMap._rooms_overlap p q = WorldMap._rooms_overlap q p.
Proof.
  unfold WorldMap._rooms_overlap. cbv zeta.
  destruct (Room.x p + Room.width p / two <=? Room.x q - Room.width q / two)%num,
           (Room.x q + Room.width q / two <=? Room.x p - Room.width p / two)%num,
           (Room.y p + Room.height p / two <=? Room.y q - Room.height q / two)%num,
           (Room.y q + Room.height q / two <=? Room.y p - Room.height p / two)%num;
    reflexivity.
Qed.

Lemma resolve_iterations_bound n M k : WorldMap.resolve_iterations n M k <= n.
Proof.
  revert M. induction n as [|n IH]; intros M; simpl; [lia|].
  destruct (PyDict.get (WorldMap.rooms M) k) as [new_room|]; [|lia].
  destruct (WorldMap.first_conflict _ new_room) as [b|]; [|lia].
  specialize (IH (WorldMap.update_room M k
                    (fun r => WorldMap._move_room_away_from_conflict r b))).
  lia.
Qed.

Lemma resolve_loop_converged n M k placed0 :
  PyDict.get (WorldMap.rooms M) k = Some placed0 ->
  WorldMap.resolve_iterations n M k < n ->
  exists placed,
    PyDict.get (WorldMap.rooms (WorldMap.resolve_loop n M k)) k = Some placed /\
    WorldMap.first_conflict
      (PyDict.values (WorldMap.rooms (WorldMap.resolve_loop n M k))) placed = None.
Proof.
  revert M placed0. induction n as [|n IH]; intros M placed0 G Lt; simpl in *;
    [lia|].
  rewrite G in *.
  destruct (WorldMap.first_conflict (PyDict.values (WorldMap.rooms M)) placed0)
    as [b|] eqn:F.
  - apply IH with (placed0 := WorldMap._move_room_away_from_conflict placed0 b).
    + rewrite get_update_room, G.
      destruct (key_eq_dec k k); [reflexivity | congruence].
    + lia.
  - exists placed0. now split.
Qed.

(** X12.  The resolver makes at most ten relocations; when it stops with
    fewer than ten, the room it placed overlaps no room of the store with a
    different id. *)
Theorem resolver_converged_means_no_overlap M k placed0 :
  WorldMap.get_room M k = Some placed0 ->
  WorldMap.resolve_iterations 10 M k <= 10 /\
  (WorldMap.resolve_iterations 10 M k < 10 ->
   exists placed,
     WorldMap.get_room (WorldMap._resolve_spatial_conflicts M k) k = Some placed /\
     forall other,
       In other (PyDict.values
                   (WorldMap.rooms (WorldMap._resolve_spatial_conflicts M k))) ->
       Room.id other <> Room.id placed ->
       WorldMap._rooms_overlap placed other = false).
Proof.
  unfold WorldMap.get_room, WorldMap._resolve_spatial_conflicts,
    WorldMap.max_iterations. intros G.
  split; [apply resolve_iterations_bound|]. intros Lt.
  destruct (resolve_loop_converged _ _ G Lt) as (placed & G' & F).
  exists placed. split; [exact G'|]. intros other I D.
  pose proof (find_none _ _ F other I) as Fo. simpl in Fo.
  apply String.eqb_neq in D. now rewrite D in Fo.
Qed.

Lemma pymin_of_in (first : num) rest : In (pymin_of first rest) (first :: rest).
Proof.
  unfold pymin_of. revert first. induction rest as [|x rest IH]; intros first;
    simpl; [now left|].
  destruct (IH (pymin first x)) as [E|I].
  - rewrite <- E. unfold pymin.
    destruct (nltb x first); [right; now left | now left].
  - right. now right.
Qed.

Lemma pymax_of_in (first : num) rest : In (pymax_of first rest) (first :: rest).
Proof.
  unfold pymax_of. revert first. induction rest as [|x rest IH]; intros first;
    simpl; [now left|].
  destruct (IH (pymax first x)) as [E|I].
  - rewrite <- E. unfold pymax.
    destruct (nltb first x); [right; now left | now left].
  - right. now right.
Qed.

Lemma in_edges (edge : Room.t N -> num) (room : Room.t N) others v :
  In v (edge room :: map edge others) ->
  exists r, In r (room :: others) /\ v = edge r.
Proof.
  intros [<-|I].
  - exists room. split; [now left | reflexivity].
  - apply in_map_iff in I. destruct I as (r & <- & I).
    exists r. split; [now right | reflexivity].
Qed.

(** X13.  [get_map_bounds] of the empty store is four zeros; on a non-empty
    store each of the four bounds is attained: it is the left, bottom, right
    or top edge of some room of the store. *)
Theorem map_bounds_are_room_edges M :
  (WorldMap.rooms M = [] ->
   WorldMap.get_map_bounds M = (zero, zero, zero, zero)) /\
  (WorldMap.rooms M <> [] ->
   exists r_left r_bottom r_right r_top,
     In r_left (PyDict.values (WorldMap.rooms M)) /\
     In r_bottom (PyDict.values (WorldMap.rooms M)) /\
     In r_right (PyDict.values (WorldMap.rooms M)) /\
     In r_top (PyDict.values (WorldMap.rooms M)) /\
     WorldMap.get_map_bounds M =
       (left_edge r_left, bottom_edge r_bottom,
        right_edge r_right, top_edge r_top)).
Proof.
  unfold WorldMap.get_map_bounds. split.
  - now intros ->.
  - intros NE. unfold PyDict.values.
    destruct (WorldMap.rooms M) as [|[k0 room] others]; [congruence|]. simpl.
    set (rest := map snd others).
    destruct (in_edges left_edge room rest (pymin_of_in _ _)) as (r1 & I1 & E1).
    destruct (in_edges bottom_edge room rest (pymin_of_in _ _)) as (r2 & I2 & E2).
    destruct (in_edges right_edge room rest (pymax_of_in _ _)) as (r3 & I3 & E3).
    destruct (in_edges top_edge room rest (pymax_of_in _ _)) as (r4 & I4 & E4).
    exists r1, r2, r3, r4. repeat (split; [assumption|]).
    unfold left_edge, bottom_edge, right_edge, top_edge in *.
    now rewrite E1, E2, E3, E4.
Qed.

Lemma total_order_onb_sound (vs : list num) :
  total_order_onb vs = true -> total_order_on vs.
Proof.
  unfold total_order_onb. intros H a b c Ia Ib Ic.
  rewrite forallb_forall in H. specialize (H a Ia).
  rewrite forallb_forall in H. specialize (H b Ib).
  rewrite forallb_forall in H. specialize (H c Ic).
  destruct (nleb a a), (nleb a b), (nleb b c), (nleb a c), (nleb b a),
    (nltb a b); simpl in H; try discriminate H; repeat split; auto;
    discriminate.
Qed.

Lemma pymin_le (vs : list num) (a b : num) :
  total_order_on vs -> In a vs -> In b vs ->
  In (pymin a b) vs /\
  nleb (pymin a b) a = true /\ nleb (pymin a b) b = true.
Proof.
  intros T Ia Ib. destruct (T b a a Ib Ia Ia) as (_ & _ & Lt & Nlt).
  destruct (T a b b Ia Ib Ib) as (Ra & _). destruct (T b a a Ib Ia Ia) as (Rb & _).
  unfold pymin. destruct (nltb b a) eqn:E.
  - split; [exact Ib|]. split; [now apply Lt | exact Rb].
  - split; [exact Ia|]. split; [exact Ra | now apply Nlt].
Qed.

Lemma pymax_ge (vs : list num) (a b : num) :
  total_order_on vs -> In a vs -> In b vs ->
  In (pymax a b) vs /\
  nleb a (pymax a b) = true /\ nleb b (pymax a b) = true.
Proof.
  intros T Ia Ib. destruct (T a b b Ia Ib Ib) as (Ra & _ & Lt & Nlt).
  destruct (T b a a Ib Ia Ia) as (Rb & _).
  unfold pymax. destruct (nltb a b) eqn:E.
  - split; [exact Ib|]. split; [now apply Lt | exact Rb].
  - split; [exact Ia|]. split; [exact Ra | now apply Nlt].
Qed.

Lemma pymin_of_le (vs : list num) (first : num) rest v :
  total_order_on vs -> incl (first :: rest) vs ->
  In v (first :: rest) -> nleb (pymin_of first rest) v = true.
Proof.
  intros T. unfold pymin_of. revert first v.
  induction rest as [|x rest IH]; intros first v Inc.
  - intros [<-|[]]. assert (If : In first vs) by (apply Inc; now left).
    exact (proj1 (T first first first If If If)).
  - assert (If : In first vs) by (apply Inc; now left).
    assert (Ix : In x vs) by (apply Inc; right; now left).
    destruct (pymin_le first x T If Ix) as (Im & Hf & Hx). simpl.
    assert (Inc' : incl (pymin first x :: rest) vs).
    { intros y [<-|Iy]; [exact Im | apply Inc; right; now right]. }
    assert (Ir : In (fold_left pymin rest (pymin first x)) vs).
    { apply Inc'. apply pymin_of_in. }
    pose proof (IH (pymin first x) (pymin first x) Inc' (or_introl eq_refl)) as Hm.
    intros [<-|[<-|I]].
    + exact (proj1 (proj2 (T _ _ _ Ir Im If)) Hm Hf).
    + exact (proj1 (proj2 (T _ _ _ Ir Im Ix)) Hm Hx).
    + apply IH; [exact Inc' | now right].
Qed.

Lemma pymax_of_ge (vs : list num) (first : num) rest v :
  total_order_on vs -> incl (first :: rest) vs ->
  In v (first :: rest) -> nleb v (pymax_of first rest) = true.
Proof.
  intros T. unfold pymax_of. revert first v.
  induction rest as [|x rest IH]; intros first v Inc.
  - intros [<-|[]]. assert (If : In first vs) by (apply Inc; now left).
    exact (proj1 (T first first first If If If)).
  - assert (If : In first vs) by (apply Inc; now left).
    assert (Ix : In x vs) by (apply Inc; right; now left).
    destruct (pymax_ge first x T If Ix) as (Im & Hf & Hx). simpl.
    assert (Inc' : incl (pymax first x :: rest) vs).
    { intros y [<-|Iy]; [exact Im | apply Inc; right; now right]. }
    assert (Ir : In (fold_left pymax rest (pymax first x)) vs).
    { apply Inc'. apply pymax_of_in. }
    pose proof (IH (pymax first x) (pymax first x) Inc' (or_introl eq_refl)) as Hm.
    intros [<-|[<-|I]].
    + exact (proj1 (proj2 (T _ _ _ If Im Ir)) Hf Hm).
    + exact (proj1 (proj2 (T _ _ _ Ix Im Ir)) Hx Hm).
    + apply IH; [exact Inc' | now right].
Qed.

Lemma room_edges_in M r :
  In r (PyDict.values (WorldMap.rooms M)) ->
  In (left_edge r) (room_edges M) /\ In (bottom_edge r) (room_edges M) /\
  In (right_edge r) (room_edges M) /\ In (top_edge r) (room_edges M).
Proof.
  intros I. unfold room_edges.
  repeat split; apply in_flat_map; exists r; (split; [exact I|]); simpl; auto.
Qed.

(** X14.  Where [<=] and [<] behave as the comparisons of a total order on
    the edges of the rooms of the store, the bounds contain every room: no
    room reaches left of [min_x], below [min_y], right of [max_x] or above
    [max_y]. *)
Theorem map_bounds_contain_every_room M r (min_x min_y max_x max_y : num) :
  total_order_on (room_edges M) ->
  In r (PyDict.values (WorldMap.rooms M)) ->
  WorldMap.get_map_bounds M = (min_x, min_y, max_x, max_y) ->
  nleb min_x (left_edge r) = true /\ nleb min_y (bottom_edge r) = true /\
  nleb (right_edge r) max_x = true /\ nleb (top_edge r) max_y = true.
Proof.
  intros T I.
  assert (Inc : forall edge : Room.t N -> num,
             (forall q, In q (PyDict.values (WorldMap.rooms M)) ->
                        In (edge q) (room_edges M)) ->
             incl (map edge (PyDict.values (WorldMap.rooms M))) (room_edges M)).
  { intros edge He v Iv. apply in_map_iff in Iv.
    destruct Iv as (q & <- & Iq). now apply He. }
  assert (Ie : forall edge : Room.t N -> num,
             In (edge r) (map edge (PyDict.values (WorldMap.rooms M))))
    by (intros edge; now apply in_map).
  unfold WorldMap.get_map_bounds.
  destruct (PyDict.values (WorldMap.rooms M)) as [|room others] eqn:V;
    [destruct I|].
  intros [= <- <- <- <-]. repeat split.
  - apply (@pymin_of_le (room_edges M) (left_edge room) (map left_edge others) _ T);
      [| apply (Ie left_edge)].
    apply (Inc left_edge). intros q Iq. apply (room_edges_in M q). now rewrite V.
  - apply (@pymin_of_le (room_edges M) (bottom_edge room) (map bottom_edge others) _ T);
      [| apply (Ie bottom_edge)].
    apply (Inc bottom_edge). intros q Iq. apply (room_edges_in M q). now rewrite V.
  - apply (@pymax_of_ge (room_edges M) (right_edge room) (map right_edge others) _ T);
      [| apply (Ie right_edge)].
    apply (Inc right_edge). intros q Iq. apply (room_edges_in M q). now rewrite V.
  - apply (@pymax_of_ge (room_edges M) (top_edge room) (map top_edge others) _ T);
      [| apply (Ie top_edge)].
    apply (Inc top_edge). intros q Iq. apply (room_edges_in M q). now rewrite V.
Qed.
End Geometry.

(** ** More on the codec *)

Section MoreCodec.
Context {N : Num}.
Implicit Types (M : WorldMap.t N) (r : Room.t N) (k : string).

(** X17.  Tokens and directions convert back and forth: [Direction(d.value)]
    is [d], a token [Direction] accepts is the value of the member returned,
    and distinct members have distinct tokens. *)
Theorem direction_tokens_round_trip :
  (forall d, Direction_of (value d) = Ok d) /\
  (forall token d, Direction_of token = Ok d -> value d = token) /\
  (forall d1 d2, value d1 = value d2 -> d1 = d2).
Proof.
  split; [|split].
  - intros d. now destruct d.
  - intros token d. unfold Direction_of.
    destruct (find _ all_directions) as [d'|] eqn:F; [|discriminate].
    intros [= <-]. apply find_some in F. now apply String.eqb_eq.
  - intros d1 d2 E. destruct d1, d2; (reflexivity || discriminate E).
Qed.

End MoreCodec.

(** ** The data for a graphical renderer *)

Section Graphical.
Context {N : Num}.
Implicit Types (M : WorldMap.t N) (r : Room.t N) (k : string).

Lemma in_room_connections M r c :
  In c (MapVisualizer.room_connections M r) ->
  MapVisualizer.from_room c = Room.id r /\
  MapVisualizer.to_room c <> "" /\
  (exists target_room,
     WorldMap.get_room M (MapVisualizer.to_room c) = Some target_room) /\
  exists d e,
    PyDict.get (Room.exits r) d <> None /\
    In (d, e) (PyDict.items (Room.exits r)) /\
    RoomExit.target_room_id e = Some (MapVisualizer.to_room c) /\
    MapVisualizer.direction c = value d.
Proof.
  unfold MapVisualizer.room_connections. intros I.
  apply in_flat_map in I. destruct I as ([d e] & Ie & I).
  unfold MapVisualizer.is_connected in I.
  destruct (RoomExit.is_discovered e); simpl in I; [|destruct I].
  destruct (RoomExit.target_room_id e) as [target|] eqn:T; [|destruct I].
  destruct (String.eqb target "") eqn:Et; simpl in I; [destruct I|].
  destruct (Room.get_exit_position r d) as [ex ey].
  destruct (WorldMap.get_room M target) as [target_room|] eqn:G; [|destruct I].
  destruct (MapVisualizer.exit_position_of target_room _) as [tx ty].
  destruct I as [<-|[]]. simpl. split; [reflexivity|].
  split; [now apply String.eqb_neq|]. split; [eauto|].
  exists d, e. split; [|now repeat split].
  intros Gn. apply get_none_keys in Gn. apply Gn.
  unfold PyDict.keys. apply in_map_iff. now exists (d, e).
Qed.

(** X19.  [total_rooms] is the number of room entries, and
    [get_graphical_data] never emits a dangling connection: every connection
    starts at a room of the store, ends at a room of the store whose id is
    not the empty string, and is labelled with a direction token. *)
Theorem graphical_connections_join_rooms M :
  MapVisualizer.total_rooms (MapVisualizer.get_graphical_data M) =
  length (MapVisualizer.rooms (MapVisualizer.get_graphical_data M)) /\
  forall c,
    In c (MapVisualizer.connections (MapVisualizer.get_graphical_data M)) ->
    (exists r, In r (PyDict.values (WorldMap.rooms M)) /\
               MapVisualizer.from_room c = Room.id r) /\
    (exists target_room,
       WorldMap.get_room M (MapVisualizer.to_room c) = Some target_room) /\
    MapVisualizer.to_room c <> "" /\
    is_direction_token (MapVisualizer.direction c) = true.
Proof.
  unfold MapVisualizer.get_graphical_data.
  destruct (WorldMap.get_map_bounds M) as [[[min_x min_y] max_x] max_y].
  simpl. split.
  - unfold PyDict.len, PyDict.values. now rewrite !length_map.
  - intros c I. apply in_flat_map in I. destruct I as (r & Ir & I).
    destruct (in_room_connections _ _ _ I)
      as (F & Ne & T & d & e & _ & _ & _ & D).
    split; [now exists r|]. split; [exact T|]. split; [exact Ne|].
    rewrite D. now destruct d.
Qed.

Lemma length_flat_map_ext {A B C : Type} (f : A -> list B) (g : A -> list C) l :
  (forall a, In a l -> length (f a) = length (g a)) ->
  length (flat_map f l) = length (flat_map g l).
Proof.
  induction l as [|a l IH]; intros H; simpl; [reflexivity|].
  rewrite !length_app, H by now left.
  f_equal. apply IH. intros a' I. apply H. now right.
Qed.

(** With every target in the store, each connected exit of a room yields
    one connection. *)
Lemma room_connections_count M r :
  (forall d e target, In (d, e) (PyDict.items (Room.exits r)) ->
     RoomExit.target_room_id e = Some target ->
     PyDict.mem (WorldMap.rooms M) target = true) ->
  length (MapVisualizer.room_connections M r) =
  length (filter MapVisualizer.is_connected (PyDict.values (Room.exits r))).
Proof.
  unfold MapVisualizer.room_connections, PyDict.items, PyDict.values.
  induction (Room.exits r) as [|[d e] es IH]; intros H; simpl; [reflexivity|].
  rewrite length_app, IH
    by (intros d' e' t I T; apply (H d' e' t); [now right | exact T]).
  destruct (MapVisualizer.is_connected e) eqn:C; [|reflexivity].
  simpl. f_equal.
  destruct (Room.get_exit_position r d) as [ex ey].
  unfold MapVisualizer.is_connected in C.
  destruct (RoomExit.target_room_id e) as [target|] eqn:T;
    [|now rewrite andb_false_r in C].
  assert (Mt : PyDict.mem (WorldMap.rooms M) target = true)
    by (apply (H d e target); [now left | exact T]).
  unfold WorldMap.get_room.
  destruct (mem_true_get _ _ Mt) as [target_room ->].
  now destruct (MapVisualizer.exit_position_of target_room _).
Qed.

(** X20.  On a store built by the mutators from the empty store,
    [get_graphical_data] emits one connection for each exit that is
    discovered and has a non-empty target, dropping none. *)
Theorem graphical_connections_cover_connected_exits calls :
  length (MapVisualizer.connections
            (MapVisualizer.get_graphical_data (run calls))) =
  length (connected_exits (run calls)).
Proof.
  unfold MapVisualizer.get_graphical_data, connected_exits.
  destruct (WorldMap.get_map_bounds (run calls)) as [[[min_x min_y] max_x] max_y].
  simpl. apply length_flat_map_ext. intros r Ir.
  destruct (run_valid calls) as [W We].
  destruct (@in_values_get _ _ _ _ _ Ir W) as [k G].
  apply room_connections_count. intros d e target Ie T.
  assert (Ge : PyDict.get (Room.exits r) d = Some e)
    by (apply in_get_wf; [exact (We k r G) | exact Ie]).
  destruct (run_exits_sound calls k d G Ge) as (_ & _ & Ht). now apply Ht.
Qed.
End Graphical.

(** ** Concrete runs of the further properties *)

Lemma add_room_twice_witness :
  exists M1 r1,
    WorldMap.add_room empty_store "a" "A" "d" 5%float 5%float true
      = Ok (M1, r1) /\
    WorldMap.add_room M1 "a" "Other" "renamed" 9%float 9%float false
      = Ok (M1, r1).
Proof.
  do 2 eexists. split; [reflexivity|].
  apply (@add_room_twice float_num empty_store "a" "A" "d" 5%float 5%float true
           _ _ "Other" "renamed" 9%float 9%float false eq_refl).
Defined.

Lemma connect_rooms_raises_iff_unknown_witness :
  PyDict.mem (WorldMap.rooms one_room) "ghost" = false /\
  WorldMap.connect_rooms one_room "a" NORTH "ghost" =
    Raise (ValueError "Both rooms must exist before connecting them").
Proof.
  split; [reflexivity|].
  apply (proj1 (connect_rooms_raises_iff_unknown one_room "a" NORTH "ghost")).
  right. reflexivity.
Defined.

Lemma connecting_keeps_rooms_and_counters_witness :
  exists M',
    WorldMap.connect_rooms two_rooms "a" NORTH "b" = Ok M' /\
    WorldMap.discovery_count M' = WorldMap.discovery_count two_rooms /\
    WorldMap.starting_room_id M' = WorldMap.starting_room_id two_rooms /\
    map room_identity (WorldMap.rooms M') =
    map room_identity (WorldMap.rooms two_rooms).
Proof.
  eexists. split; [reflexivity|].
  apply (proj1 (connecting_keeps_rooms_and_counters two_rooms)
           "a" NORTH "b" _ eq_refl).
Defined.

Lemma room_is_keyed_by_its_id_witness :
  exists r,
    WorldMap.get_room (run scenario_B_calls) "b" = Some r /\ Room.id r = "b".
Proof.
  eexists. split; [reflexivity|].
  apply (@room_is_keyed_by_its_id float_num scenario_B_calls "b" _ eq_refl).
Defined.

Lemma exits_match_their_slot_witness :
  exists r e,
    WorldMap.get_room (run scenario_B_calls) "b" = Some r /\
    PyDict.get (Room.exits r) SOUTH = Some e /\
    RoomExit.direction e = SOUTH /\
    RoomExit.is_discovered e = present (RoomExit.target_room_id e).
Proof.
  do 2 eexists. split; [reflexivity|]. split; [reflexivity|].
  apply (@exits_match_their_slot float_num scenario_B_calls "b" _ SOUTH _
           eq_refl eq_refl).
Defined.

Lemma exit_targets_are_rooms_witness :
  exists r e,
    WorldMap.get_room (run scenario_B_calls) "b" = Some r /\
    PyDict.get (Room.exits r) SOUTH = Some e /\
    RoomExit.target_room_id e = Some "a" /\
    exists target_room,
      WorldMap.get_room (run scenario_B_calls) "a" = Some target_room.
Proof.
  do 2 eexists. split; [reflexivity|]. split; [reflexivity|].
  split; [reflexivity|].
  apply (@exit_targets_are_rooms float_num scenario_B_calls "b" _ SOUTH _ "a"
           eq_refl eq_refl eq_refl).
Defined.

Lemma connect_rooms_keeps_other_exits_witness :
  exists M' r r',
    WorldMap.connect_rooms scenario_B "a" EAST "b" = Ok M' /\
    WorldMap.get_room scenario_B "a" = Some r /\
    WorldMap.get_room M' "a" = Some r' /\
    PyDict.get (Room.exits r') NORTH = PyDict.get (Room.exits r) NORTH.
Proof.
  destruct (@connect_rooms_keeps_other_exits float_num scenario_B
              "a" EAST "b" _ "a" _ eq_refl eq_refl) as (r' & G' & Keep & _).
  do 3 eexists. split; [reflexivity|]. split; [reflexivity|].
  split; [exact G'|].
  apply Keep; intros [_ H]; discriminate H.
Defined.

Lemma discover_exit_twice_witness :
  exists M1,
    WorldMap.discover_exit one_room "a" EAST = Ok M1 /\
    WorldMap.discover_exit M1 "a" EAST = Ok M1.
Proof.
  eexists. split; [reflexivity|].
  apply (@discover_exit_twice float_num one_room "a" EAST _ eq_refl).
Defined.

Lemma resolver_converged_means_no_overlap_witness :
  WorldMap.resolve_iterations 10 coincident_rooms_binary64 "b" < 10 /\
  exists placed,
    WorldMap.get_room
      (WorldMap._resolve_spatial_conflicts coincident_rooms_binary64 "b") "b"
      = Some placed /\
    forall other,
      In other
        (PyDict.values
           (WorldMap.rooms
              (WorldMap._resolve_spatial_conflicts
                 coincident_rooms_binary64 "b"))) ->
      Room.id other <> Room.id placed ->
      WorldMap._rooms_overlap placed other = false.
Proof.
  assert (Lt : WorldMap.resolve_iterations 10 coincident_rooms_binary64 "b" < 10)
    by (vm_compute; repeat constructor).
  split; [exact Lt|].
  apply (proj2 (@resolver_converged_means_no_overlap float_num
                  coincident_rooms_binary64 "b" _ eq_refl)).
  exact Lt.
Defined.

Lemma map_bounds_are_room_edges_witness :
  WorldMap.rooms one_room <> [] /\
  exists r_left r_bottom r_right r_top,
    In r_left (PyDict.values (WorldMap.rooms one_room)) /\
    In r_bottom (PyDict.values (WorldMap.rooms one_room)) /\
    In r_right (PyDict.values (WorldMap.rooms one_room)) /\
    In r_top (PyDict.values (WorldMap.rooms one_room)) /\
    WorldMap.get_map_bounds one_room =
      (left_edge r_left, bottom_edge r_bottom,
       right_edge r_right, top_edge r_top).
Proof.
  assert (NE : WorldMap.rooms one_room <> []) by discriminate.
  split; [exact NE|].
  exact (proj2 (map_bounds_are_room_edges one_room) NE).
Defined.

Lemma map_bounds_contain_every_room_witness :
  total_order_on (room_edges scenario_D) /\
  exists r min_x min_y max_x max_y,
    WorldMap.get_room scenario_D "room2" = Some r /\
    WorldMap.get_map_bounds scenario_D = (min_x, min_y, max_x, max_y) /\
    nleb min_x (left_edge r) = true /\ nleb min_y (bottom_edge r) = true /\
    nleb (right_edge r) max_x = true /\ nleb (top_edge r) max_y = true.
Proof.
  assert (T : total_order_on (room_edges scenario_D))
    by (apply total_order_onb_sound; vm_compute; reflexivity).
  split; [exact T|].
  do 5 eexists. split; [reflexivity|]. split; [reflexivity|].
  apply (@map_bounds_contain_every_room float_num scenario_D);
    [exact T | right; left; reflexivity | reflexivity].
Defined.

Lemma direction_tokens_round_trip_witness :
  Direction_of "northeast" = Ok NORTHEAST /\ value NORTHEAST = "northeast".
Proof.
  split; [reflexivity|].
  apply (proj1 (proj2 direction_tokens_round_trip) "northeast" NORTHEAST).
  reflexivity.
Defined.

Lemma graphical_connections_join_rooms_witness :
  In scenario_B_connection
    (MapVisualizer.connections (MapVisualizer.get_graphical_data scenario_B)) /\
  (exists r, In r (PyDict.values (WorldMap.rooms scenario_B)) /\
             MapVisualizer.from_room scenario_B_connection = Room.id r) /\
  (exists target_room,
     WorldMap.get_room scenario_B
       (MapVisualizer.to_room scenario_B_connection) = Some target_room).
Proof.
  assert (I : In scenario_B_connection
                (MapVisualizer.connections
                   (MapVisualizer.get_graphical_data scenario_B)))
    by (vm_compute; left; reflexivity).
  split; [exact I|].
  destruct (proj2 (graphical_connections_join_rooms scenario_B) _ I)
    as (F & T & _).
  now split.
Defined.
